(** * Binary-option replication (replication.py): model and verified properties

    The development embeds [replicate_binary_option] and
    [plot_binary_replication_payoff] of [src/replication.py].

    Modelling conventions.
    - A finite float is an exact rational ([Q]); the non-finite values numpy
      produces silently (a division by zero gives [inf], [inf - inf] gives
      [nan]) are kept as separate constructors of [float64].  Rounding and
      signed zeros are not modelled; equalities between results are stated
      up to [==] on [Q], and a product, sum or difference in a statement
      stands for the operation the code performs.
    - A number held in a result dictionary ([VFloat]) is a numpy [float64]
      scalar, as the calculator returns it: dividing by a zero weight gives
      [inf] and raises nothing.  The digits the note pattern accepts are
      the ASCII digits.
    - A pandas frame is a list of rows; a Python [dict] is an association
      list in insertion order; a raised exception is the [Raise] branch of
      [result].
    - The figure drawn by matplotlib is represented by the three arrays the
      plotting calls receive. *)

From Stdlib Require Import QArith Qabs Qround ZArith List String Ascii Bool Lia Lqa.
From Stdlib Require Import DecimalString DecimalN.
From Stdlib Require Import Sorting.Sorted SetoidList.
Import ListNotations.

Open Scope string_scope.
Open Scope Q_scope.

(* ================================================================= *)
(** ** Exceptions *)

Inductive exn : Type :=
| ValueError (msg : string)
| KeyError (key : string)
| IndexError
| TypeError.

Inductive result (A : Type) : Type :=
| Ok (a : A)
| Raise (e : exn).

Arguments Ok {A} a.
Arguments Raise {A} e.

Definition bind {A B : Type} (m : result A) (k : A -> result B) : result B :=
  match m with
  | Ok a => k a
  | Raise e => Raise e
  end.

Notation "x <- m ;; k" := (bind m (fun x => k))
  (at level 61, m at next level, right associativity).

Notation "' pat <- m ;; k" := (bind m (fun x => match x with pat => k end))
  (at level 61, pat pattern, m at next level, right associativity).


(* ================================================================= *)
(** ** Floating-point values *)

Inductive float64 : Type :=
| Finite (q : Q)
| PosInf
| NegInf
| NaN.

(** Value equality: rationals up to [==], the other values by name. *)
Definition f_eq (x y : float64) : Prop :=
  match x, y with
  | Finite a, Finite b => a == b
  | PosInf, PosInf | NegInf, NegInf | NaN, NaN => True
  | _, _ => False
  end.

Definition Qlt_bool (a b : Q) : bool := negb (Qle_bool b a).

Definition f_neg (x : float64) : float64 :=
  match x with
  | Finite a => Finite (- a)
  | PosInf => NegInf
  | NegInf => PosInf
  | NaN => NaN
  end.

Definition f_add (x y : float64) : float64 :=
  match x, y with
  | Finite a, Finite b => Finite (a + b)
  | NaN, _ | _, NaN => NaN
  | PosInf, NegInf | NegInf, PosInf => NaN
  | PosInf, _ | _, PosInf => PosInf
  | NegInf, _ | _, NegInf => NegInf
  end.

Definition f_sub (x y : float64) : float64 := f_add x (f_neg y).

(** An infinity times [a]: the sign follows [a], and [inf * 0] is [nan]. *)
Definition inf_times (pos : bool) (a : Q) : float64 :=
  match a ?= 0 with
  | Eq => NaN
  | Gt => if pos then PosInf else NegInf
  | Lt => if pos then NegInf else PosInf
  end.

Definition f_mul (x y : float64) : float64 :=
  match x, y with
  | Finite a, Finite b => Finite (a * b)
  | NaN, _ | _, NaN => NaN
  | PosInf, Finite a | Finite a, PosInf => inf_times true a
  | NegInf, Finite a | Finite a, NegInf => inf_times false a
  | PosInf, PosInf | NegInf, NegInf => PosInf
  | PosInf, NegInf | NegInf, PosInf => NegInf
  end.

(** numpy's true division: a finite value divided by zero is an infinity
    of the sign of the numerator (and [0 / 0] is [nan]); no exception. *)
Definition f_div (x y : float64) : float64 :=
  match x, y with
  | Finite a, Finite b =>
      if Qeq_bool b 0 then inf_times true a else Finite (a / b)
  | NaN, _ | _, NaN => NaN
  | Finite _, _ => Finite 0
  | PosInf, Finite b => if Qle_bool 0 b then PosInf else NegInf
  | NegInf, Finite b => if Qle_bool 0 b then NegInf else PosInf
  | _, _ => NaN
  end.

(** [np.maximum]: the larger value, [nan] if either side is [nan]. *)
Definition f_maximum (x y : float64) : float64 :=
  match x, y with
  | NaN, _ | _, NaN => NaN
  | PosInf, _ | _, PosInf => PosInf
  | NegInf, z | z, NegInf => z
  | Finite a, Finite b => if Qle_bool a b then Finite b else Finite a
  end.

(* ================================================================= *)
(** ** The instrument table *)

Record row : Type := mkRow {
  col_option_type : string;
  col_strike : Q;
  col_expiration_timestamp : Z;
  col_instrument_name : string;
  col_last_price : Q
}.

Definition DataFrame : Type := list row.

(** [Series.unique()]: the distinct values, in order of first appearance. *)
Fixpoint unique (l : list Q) : list Q :=
  match l with
  | [] => []
  | x :: t => x :: filter (fun y => negb (Qeq_bool y x)) (unique t)
  end.

Fixpoint insert (x : Q) (l : list Q) : list Q :=
  match l with
  | [] => [x]
  | y :: t => if Qle_bool x y then x :: l else y :: insert x t
  end.

(** [np.sort]: ascending order. *)
Definition np_sort (l : list Q) : list Q := fold_right insert [] l.

(** [np.searchsorted(a, v, side='left')] on an ascending array: the number
    of leading elements strictly below [v]. *)
Fixpoint searchsorted_left (a : list Q) (v : Q) : Z :=
  match a with
  | [] => 0
  | x :: t => if Qlt_bool x v then (1 + searchsorted_left t v)%Z else 0%Z
  end.

(** [np.searchsorted(a, v, side='right')] on an ascending array: the number
    of leading elements not above [v]. *)
Fixpoint searchsorted_right (a : list Q) (v : Q) : Z :=
  match a with
  | [] => 0
  | x :: t => if Qle_bool x v then (1 + searchsorted_right t v)%Z else 0%Z
  end.

Definition len {A : Type} (a : list A) : Z := Z.of_nat (List.length a).

(** [a[i]] on an array: a negative index counts from the end, an index
    outside [-len, len) raises [IndexError]. *)
Definition np_getitem (a : list Q) (i : Z) : result Q :=
  let j := if (i <? 0)%Z then (i + len a)%Z else i in
  if ((0 <=? j) && (j <? len a))%Z then
    match nth_error a (Z.to_nat j) with
    | Some x => Ok x
    | None => Raise IndexError
    end
  else Raise IndexError.

(** [df.iloc[0]]: the first row, [IndexError] on an empty frame. *)
Definition iloc0 (df : DataFrame) : result row :=
  match df with
  | r :: _ => Ok r
  | [] => Raise IndexError
  end.

Definition no_suitable_strikes : exn :=
  ValueError "No suitable strikes found for replication.".

Definition invalid_option_type : exn :=
  ValueError "Option type must be 'call' or 'put'.".

(** The rows of one expiration and one class (lines 31, 33 and 59). *)
Definition df_of_class (vanilla_option_data : DataFrame) (cls : string)
    (expiry_timestamp : Z) : DataFrame :=
  let df_expiry :=
    filter (fun r => (col_expiration_timestamp r =? expiry_timestamp)%Z)
           vanilla_option_data in
  filter (fun r => String.eqb (col_option_type r) cls) df_expiry.

(** Lines 34 and 60: the distinct strikes of the subset, ascending. *)
Definition strikes_of (df : DataFrame) : list Q :=
  np_sort (unique (map col_strike df)).

(** Lines 36-43: the two strikes of the call spread. *)
Definition select_call (strikes : list Q) (strike replication_precision : Q)
    : result (Q * Q) :=
  let strike1_idx := searchsorted_left strikes strike in
  let strike2_idx :=
    searchsorted_left strikes (strike + replication_precision) in
  if ((strike1_idx >=? len strikes) || (strike2_idx >=? len strikes))%Z then
    Raise no_suitable_strikes
  else
    K1 <- np_getitem strikes strike1_idx ;;
    K2 <- np_getitem strikes strike2_idx ;;
    Ok (K1, K2).

(** Lines 62-69: the two strikes of the put spread. *)
Definition select_put (strikes : list Q) (strike replication_precision : Q)
    : result (Q * Q) :=
  let strike2_idx := (searchsorted_right strikes strike - 1)%Z in
  let strike1_idx :=
    (searchsorted_right strikes (strike - replication_precision) - 1)%Z in
  if ((strike1_idx <? 0) || (strike2_idx <? 0))%Z then
    Raise no_suitable_strikes
  else
    K1 <- np_getitem strikes strike1_idx ;;
    K2 <- np_getitem strikes strike2_idx ;;
    Ok (K1, K2).

(* ================================================================= *)
(** ** Python values and dictionaries *)

#[warnings="-register-all"]
Inductive pyval : Type :=
| VFloat (x : float64)
| VStr (s : string)
| VDict (d : list (string * pyval)).

Definition dict : Type := list (string * pyval).

Fixpoint dict_lookup (d : dict) (k : string) : option pyval :=
  match d with
  | [] => None
  | (k', v) :: t => if String.eqb k' k then Some v else dict_lookup t k
  end.

(** [d[k]]: [KeyError] when the key is absent. *)
Definition dict_getitem (d : dict) (k : string) : result pyval :=
  match dict_lookup d k with
  | Some v => Ok v
  | None => Raise (KeyError k)
  end.

(** [v[k]] on an arbitrary value: only a dictionary can be subscripted by
    a string. *)
Definition getitem (v : pyval) (k : string) : result pyval :=
  match v with
  | VDict d => dict_getitem d k
  | _ => Raise TypeError
  end.

(** A value used as an operand of float arithmetic. *)
Definition as_float (v : pyval) : result float64 :=
  match v with
  | VFloat x => Ok x
  | _ => Raise TypeError
  end.

(** A value handed to [re.findall] as the subject string. *)
Definition as_str (v : pyval) : result string :=
  match v with
  | VStr s => Ok s
  | _ => Raise TypeError
  end.

(* ================================================================= *)
(** ** Printing and reading floats

    [str] of a float prints the shortest decimal that reads back as the
    same float, at most 17 significant digits: positional notation for zero
    and for magnitudes in [1e-4, 1e16), exponent notation elsewhere, a
    leading [-] for negative values.  On rationals the functions below
    print the decimal expansion in that layout, cut after the 17th
    significant digit; for a value with at most 15 significant digits this
    is the text Python prints for the nearest float. *)

Definition digit_char (d : Z) : ascii := ascii_of_N (48 + Z.to_N d).

Definition nat_str (n : Z) : string :=
  NilEmpty.string_of_uint (N.to_uint (Z.to_N n)).

(** The digits of [f] after the point, for [0 <= f < 1]; stops when the
    remainder vanishes or after [fuel] digits. *)
Fixpoint frac_digits (fuel : nat) (f : Q) : string :=
  match fuel with
  | O => ""
  | S fuel' =>
      let d := Qfloor (f * 10) in
      let r := f * 10 - inject_Z d in
      String (digit_char d)
             (if Qeq_bool r 0 then "" else frac_digits fuel' r)
  end.

(** Number of zeros between the point and the first significant digit of
    [a], for [1e-4 <= a < 1]. *)
Definition leading_zeros (a : Q) : nat :=
  if Qle_bool (1 # 10) a then 0%nat
  else if Qle_bool (1 # 100) a then 1%nat
  else if Qle_bool (1 # 1000) a then 2%nat
  else 3%nat.

(** How many digits may follow the point so that at most 17 significant
    digits are printed. *)
Definition fraction_budget (a : Q) : nat :=
  if (0 <? Qfloor a)%Z then (17 - String.length (nat_str (Qfloor a)))%nat
  else (17 + leading_zeros a)%nat.

(** Positional notation: integer part, point, fractional digits. *)
Definition fixed_str (a : Q) : string :=
  let i := Qfloor a in
  let f := a - inject_Z i in
  nat_str i ++ "." ++ frac_digits (fraction_budget a) f.

(** Multiply by ten until the value reaches 1, counting the steps down. *)
Fixpoint scale_up (fuel : nat) (a : Q) (e : Z) : Q * Z :=
  match fuel with
  | O => (a, e)
  | S fuel' =>
      if Qle_bool 1 a then (a, e) else scale_up fuel' (a * 10) (e - 1)
  end.

(** [a = m * 10^e] with [1 <= m < 10], for [a > 0]. *)
Definition normalise (a : Q) : Q * Z :=
  if Qle_bool 1 a then
    let e := (Z.of_nat (String.length (nat_str (Qfloor a))) - 1)%Z in
    (a / inject_Z (10 ^ e), e)
  else scale_up (S (Pos.size_nat (Qden a))) a 0.

(** Exponent notation: [d.ddde+XX], the exponent with at least two
    digits. *)
Definition exp_str (a : Q) : string :=
  let '(m, e) := normalise a in
  let d := Qfloor m in
  let f := m - inject_Z d in
  let mantissa :=
    String (digit_char d)
           (if Qeq_bool f 0 then "" else "." ++ frac_digits 16 f) in
  let sign := if (e <? 0)%Z then "-" else "+" in
  let digits := nat_str (Z.abs e) in
  mantissa ++ "e" ++ sign
           ++ (if (Z.abs e <? 10)%Z then "0" ++ digits else digits).

Definition magnitude_str (a : Q) : string :=
  if Qeq_bool a 0
     || (Qle_bool (1 # 10000) a && Qlt_bool a (inject_Z (10 ^ 16)))
  then fixed_str a
  else exp_str a.

(** [str(x)] for a finite float, as substituted into an f-string. *)
Definition float_str (x : Q) : string :=
  if Qlt_bool x 0 then "-" ++ magnitude_str (- x) else magnitude_str x.

Definition is_digit (c : ascii) : bool :=
  ((48 <=? N_of_ascii c) && (N_of_ascii c <=? 57))%N.

Definition digit_value (c : ascii) : Z := Z.of_N (N_of_ascii c - 48).

(** The value of a string of decimal digits. *)
Definition int_value (s : string) : Z :=
  match NilEmpty.uint_of_string s with
  | Some d => Z.of_N (N.of_uint d)
  | None => 0
  end.

Fixpoint frac_value (s : string) : Q :=
  match s with
  | EmptyString => 0
  | String c s' => (inject_Z (digit_value c) + frac_value s') / 10
  end.

(** The part of [s] before the first point, and the part after it. *)
Fixpoint split_point (s : string) : string * string :=
  match s with
  | EmptyString => (EmptyString, EmptyString)
  | String c s' =>
      if Ascii.eqb c "." then (EmptyString, s')
      else let '(i, f) := split_point s' in (String c i, f)
  end.

(** [float(s)] on a literal of the shape [\d+\.?\d*]. *)
Definition float_of_literal (s : string) : Q :=
  let '(i, f) := split_point s in
  inject_Z (int_value i) + frac_value f.

(* ================================================================= *)
(** ** The replication calculator *)

Definition default_replication_precision : Q := 500.

(** Lines 54 and 80: the f-string of the [note] entry, around the printed
    strikes [s1] and [s2]; [fn] is [C] for a call and [P] for a put. *)
Definition note_template (kind fn s1 s2 : string) : string :=
  "Binary " ++ kind ++ " approx by (" ++ fn ++ "(" ++ s1
    ++ ") - " ++ fn ++ "(" ++ s2 ++ ")) / (" ++ s2 ++ " - " ++ s1 ++ ")".

Definition note_of (kind fn : string) (K1 K2 : Q) : string :=
  note_template kind fn (float_str K1) (float_str K2).

(** [df[df['strike'] == K].iloc[0]] *)
Definition first_with_strike (df : DataFrame) (K : Q) : result row :=
  iloc0 (filter (fun r => Qeq_bool (col_strike r) K) df).

Definition leg (opt : row) (weight : float64) : pyval :=
  VDict [("instrument", VStr (col_instrument_name opt));
         ("weight", VFloat weight);
         ("cost", VFloat (Finite (col_last_price opt)))].

(** Lines 48-56 and 74-82: the weights and the returned dictionary; both
    branches run the same statements with their own note. *)
Definition result_dict (kind fn : string) (K1 K2 : Q) (opt1 opt2 : row)
    : dict :=
  let weight1 := f_div (Finite 1) (Finite (K2 - K1)) in
  let weight2 := f_div (Finite (-1)) (Finite (K2 - K1)) in
  [("option_1", leg opt1 weight1);
   ("option_2", leg opt2 weight2);
   ("note", VStr (note_of kind fn K1 K2));
   ("total_cost",
    VFloat (f_add (f_mul weight1 (Finite (col_last_price opt1)))
                  (f_mul weight2 (Finite (col_last_price opt2)))))].

(** Lines 45-56 and 71-82: the two rows, then the dictionary. *)
Definition build_result (df : DataFrame) (kind fn : string) (K1 K2 : Q)
    : result dict :=
  opt1 <- first_with_strike df K1 ;;
  opt2 <- first_with_strike df K2 ;;
  Ok (result_dict kind fn K1 K2 opt1 opt2).

Definition replicate_binary_option (vanilla_option_data : DataFrame)
    (option_type : string) (strike : Q) (expiry_timestamp : Z)
    (replication_precision : Q) : result dict :=
  if String.eqb option_type "call" then
    let df_calls := df_of_class vanilla_option_data "call" expiry_timestamp in
    let strikes := strikes_of df_calls in
    '(K1, K2) <- select_call strikes strike replication_precision ;;
    build_result df_calls "call" "C" K1 K2
  else if String.eqb option_type "put" then
    let df_puts := df_of_class vanilla_option_data "put" expiry_timestamp in
    let strikes := strikes_of df_puts in
    '(K1, K2) <- select_put strikes strike replication_precision ;;
    build_result df_puts "put" "P" K1 K2
  else Raise invalid_option_type.

(* ================================================================= *)
(** ** The payoff evaluator *)

(** Line 108, [re.findall] with the pattern
    [ \( ( \d+ \.? \d* ) \) ], as a left-to-right scan.  A match starts at
    an opening parenthesis, takes every digit that follows (at least one),
    an optional point and every digit after it, and must then meet the
    closing parenthesis; the group is the text between the parentheses.  A failed attempt has consumed digits and points only, so
    the next attempt starts at the next opening parenthesis. *)
Inductive scan_state : Type :=
| Idle
| IntPart (acc : string)
| FracPart (acc : string).

Definition snoc (s : string) (c : ascii) : string := s ++ String c "".

Fixpoint scan (st : scan_state) (s : string) : list string :=
  match s with
  | EmptyString => []
  | String c s' =>
      if Ascii.eqb c "(" then scan (IntPart "") s'
      else
        match st with
        | Idle => scan Idle s'
        | IntPart acc =>
            if is_digit c then scan (IntPart (snoc acc c)) s'
            else if (0 <? String.length acc)%nat then
              if Ascii.eqb c "." then scan (FracPart (snoc acc c)) s'
              else if Ascii.eqb c ")" then acc :: scan Idle s'
              else scan Idle s'
            else scan Idle s'
        | FracPart acc =>
            if is_digit c then scan (FracPart (snoc acc c)) s'
            else if Ascii.eqb c ")" then acc :: scan Idle s'
            else scan Idle s'
        end
  end.

Definition findall_paren_number (note : string) : list string :=
  scan Idle note.

(** [np.linspace(start, stop, num)] *)
Definition linspace (start stop : Q) (num : nat) : list Q :=
  let step := (stop - start) / inject_Z (Z.of_nat (num - 1)) in
  map (fun i => start + inject_Z (Z.of_nat i) * step) (seq 0 num).

Definition call_payoff (S : Q) (K : float64) : float64 :=
  f_maximum (f_sub (Finite S) K) (Finite 0).

Definition put_payoff (S : Q) (K : float64) : float64 :=
  f_maximum (f_sub K (Finite S)) (Finite 0).

(** [(cond).astype(float)] *)
Definition bool_to_float (b : bool) : float64 :=
  if b then Finite 1 else Finite 0.

(** The arrays handed to the three plotting calls of lines 144-146. *)
Record PayoffCurve : Type := mkCurve {
  prices : list Q;
  ideal_payoff : list float64;
  replicated_payoff : list float64
}.

(** Line 107: [replication.get('note', '')], as the subject of the
    search. *)
Definition get_note (replication : dict) : result string :=
  match dict_lookup replication "note" with
  | Some v => as_str v
  | None => Ok ""
  end.

(** Lines 107-116: the strikes read back from the note, or estimated from
    the first weight. *)
Definition recover_strikes (strike : Q) (replication : dict)
    : result (float64 * float64) :=
  note <- get_note replication ;;
  match findall_paren_number note with
  | m1 :: m2 :: _ =>
      Ok (Finite (float_of_literal m1), Finite (float_of_literal m2))
  | _ =>
      o1 <- dict_getitem replication "option_1" ;;
      v1 <- getitem o1 "weight" ;;
      w1 <- as_float v1 ;;
      let diff := f_div (Finite 1) w1 in
      Ok (Finite strike, f_add (Finite strike) diff)
  end.

Definition weight_of (replication : dict) (key : string) : result float64 :=
  o <- dict_getitem replication key ;;
  v <- getitem o "weight" ;;
  as_float v.

(** [replication[key]['cost']] and [replication['total_cost']]. *)
Definition cost_of (replication : dict) (key : string) : result float64 :=
  o <- dict_getitem replication key ;;
  v <- getitem o "cost" ;;
  as_float v.

Definition total_cost_of (replication : dict) : result float64 :=
  v <- dict_getitem replication "total_cost" ;;
  as_float v.

Definition plot_binary_replication_payoff (strike : Q) (option_type : string)
    (replication : dict) (price_range : option (list Q))
    : result PayoffCurve :=
  let price_range :=
    match price_range with
    | None => linspace (strike * (1 # 2)) (strike * (3 # 2)) 500
    | Some p => p
    end in
  '(K1, K2) <- recover_strikes strike replication ;;
  '(payoff_opt1, payoff_opt2) <-
    (if String.eqb option_type "call" then
       Ok (map (fun S => call_payoff S K1) price_range,
           map (fun S => call_payoff S K2) price_range)
     else if String.eqb option_type "put" then
       Ok (map (fun S => put_payoff S K1) price_range,
           map (fun S => put_payoff S K2) price_range)
     else Raise invalid_option_type) ;;
  w1 <- weight_of replication "option_1" ;;
  w2 <- weight_of replication "option_2" ;;
  let replicated_payoff :=
    map (fun p => f_add (f_mul w1 (fst p)) (f_mul w2 (snd p)))
        (combine payoff_opt1 payoff_opt2) in
  let ideal_payoff :=
    if String.eqb option_type "call" then
      map (fun S => bool_to_float (Qle_bool strike S)) price_range
    else
      map (fun S => bool_to_float (Qle_bool S strike)) price_range in
  Ok (mkCurve price_range ideal_payoff replicated_payoff).

(* ================================================================= *)
(** ** Vocabulary of the statements *)

(** The pair of strikes the taken branch assigns to [K1] and [K2]. *)
Definition selected_strikes (vanilla_option_data : DataFrame)
    (option_type : string) (strike : Q) (expiry_timestamp : Z)
    (replication_precision : Q) : result (Q * Q) :=
  if String.eqb option_type "call" then
    select_call
      (strikes_of (df_of_class vanilla_option_data "call" expiry_timestamp))
      strike replication_precision
  else if String.eqb option_type "put" then
    select_put
      (strikes_of (df_of_class vanilla_option_data "put" expiry_timestamp))
      strike replication_precision
  else Raise invalid_option_type.

(** A strike is available when a row of the expiration and class has it. *)
Definition available (tbl : DataFrame) (cls : string) (e : Z) (K : Q) : Prop :=
  exists r, In r tbl /\ col_expiration_timestamp r = e
            /\ col_option_type r = cls /\ col_strike r = K.

Definition kind_letter (option_type : string) : string :=
  if String.eqb option_type "call" then "C" else "P".

(** The ideal and replicated values the evaluator computes at one price. *)
Definition ideal_at (option_type : string) (strike S : Q) : float64 :=
  if String.eqb option_type "call" then bool_to_float (Qle_bool strike S)
  else bool_to_float (Qle_bool S strike).

Definition vanilla_payoff (option_type : string) (S : Q) (K : float64)
    : float64 :=
  if String.eqb option_type "call" then call_payoff S K else put_payoff S K.

Definition replicated_at (option_type : string) (w1 w2 K1 K2 : float64)
    (S : Q) : float64 :=
  f_add (f_mul w1 (vanilla_payoff option_type S K1))
        (f_mul w2 (vanilla_payoff option_type S K2)).

Definition default_price_range (strike : Q) : list Q :=
  linspace (strike * (1 # 2)) (strike * (3 # 2)) 500.

Fixpoint all_digits (s : string) : bool :=
  match s with
  | EmptyString => true
  | String c s' => is_digit c && all_digits s'
  end.

(** No opening parenthesis occurs in the string. *)
Fixpoint no_open (s : string) : bool :=
  match s with
  | EmptyString => true
  | String c s' => negb (Ascii.eqb c "(") && no_open s'
  end.

(** A literal made of digits, a point and digits. *)
Definition plain_number (s : string) : Prop :=
  exists i fd, s = i ++ String "." fd
               /\ all_digits i = true /\ i <> "" /\ all_digits fd = true.

(** The fractional part of [q] ends within the digits the printer may
    write after the point. *)
Definition prints_exactly (q : Q) : Prop :=
  exists m : Z,
    q * inject_Z (10 ^ Z.of_nat (fraction_budget q)) == inject_Z m.

(** A strike printed in positional notation without a sign: not negative,
    zero or in [1e-4, 1e16), with at most 17 significant digits. *)
Definition plain_strike (q : Q) : Prop :=
  0 <= q
  /\ (q == 0 \/ ((1 # 10000) <= q /\ q < inject_Z (10 ^ 16)))
  /\ prints_exactly q.

(* ================================================================= *)
(** ** Example tables *)

Definition example_expiry : Z := 1735286400000.

Definition example_row (cls : string) (K price : Q) : row :=
  mkRow cls K example_expiry ("BTC-27DEC24-" ++ nat_str (Qfloor K)) price.

(** Calls and puts at 9000, 9500, 10000, 10500 and 11000. *)
Definition example_table : DataFrame :=
  [example_row "call" 10000 700; example_row "call" 9000 1400;
   example_row "call" 11000 250; example_row "call" 9500 1000;
   example_row "call" 10500 450;
   example_row "put" 10000 650; example_row "put" 9000 200;
   example_row "put" 11000 1300; example_row "put" 9500 400;
   example_row "put" 10500 950].

(** The replication of the binary call struck at 10000 on the example
    table, with precision 500. *)
Definition example_call_replication : dict :=
  result_dict "call" "C" 10000 10500
              (example_row "call" 10000 700) (example_row "call" 10500 450).

Definition example_put_replication : dict :=
  result_dict "put" "P" 9500 10000
              (example_row "put" 9500 400) (example_row "put" 10000 650).

(** Calls at the strikes -4 and 4. *)
Definition signed_strike_table : DataFrame :=
  [mkRow "call" (-4) example_expiry "X-LOW-C" 9;
   mkRow "call" 4 example_expiry "X-HIGH-C" 2].

(** Calls at the strikes 0.00005 and 0.0001. *)
Definition small_strike_table : DataFrame :=
  [mkRow "call" (5 # 100000) example_expiry "Y-LOW-C" (3 # 100000);
   mkRow "call" (1 # 10000) example_expiry "Y-HIGH-C" (1 # 100000)].

(* ================================================================= *)
(** ** Further vocabulary *)

(** [replication[key]['instrument']] *)
Definition instrument_of (replication : dict) (key : string) : result pyval :=
  o <- dict_getitem replication key ;;
  getitem o "instrument".

(** A row of the requested class and expiration whose strike equals [K]. *)
Definition matches_leg (cls : string) (e : Z) (K : Q) (r : row) : Prop :=
  col_expiration_timestamp r = e /\ col_option_type r = cls
  /\ col_strike r == K.

(** [r] is the first row of the table, in table order, that matches. *)
Definition first_match (tbl : DataFrame) (cls : string) (e : Z) (K : Q)
    (r : row) : Prop :=
  exists pre post,
    tbl = (pre ++ r :: post)%list
    /\ matches_leg cls e K r
    /\ forall r', In r' pre -> ~ matches_leg cls e K r'.

(** The three row tests of lines 31, 33/59 and 45-46/71-72 taken together. *)
Definition leg_filter (cls : string) (e : Z) (K : Q) (r : row) : bool :=
  (col_expiration_timestamp r =? e)%Z
  && (String.eqb (col_option_type r) cls && Qeq_bool (col_strike r) K).

(** The value [v] of the replicated call at the price [S], for the first
    weight [w1]: nothing up to the lower strike, [w1 * (S - K1)] between the
    strikes, never negative. *)
Definition call_rise (w1 K1 K2 S v : Q) : Prop :=
  (S <= K1 -> v == 0)
  /\ (K1 <= S /\ S <= K2 -> v == w1 * (S - K1))
  /\ 0 <= v.

(** The value [v] of the replicated put at the price [S], for the second
    weight [w2]: nothing from the upper strike on, [w2 * (K2 - S)] between
    the strikes, never positive. *)
Definition put_fall (w2 K1 K2 S v : Q) : Prop :=
  (K2 <= S -> v == 0)
  /\ (K1 <= S /\ S <= K2 -> v == w2 * (K2 - S))
  /\ v <= 0.

(** Prices whose magnitude stays within that of the plainly printed
    strikes, so that no product of a weight and a payoff leaves the finite
    floats. *)
Definition moderate_prices (pr : list Q) : bool :=
  forallb (fun S => Qle_bool (Qabs S) (10 ^ 16)) pr.

(** The ascending strikes of the example table. *)
Definition example_strikes : list Q := [9000; 9500; 10000; 10500; 11000].

(* ================================================================= *)
(** ** JSON values and instrument records (utils.py, data_fetcher.py)

    The functions of [utils.py] and [data_fetcher.py] work on the parsed
    JSON of the exchange: an instrument is a Python [dict], kept here as an
    association list in insertion order with one entry per key. *)

#[warnings="-register-all"]
Inductive json : Type :=
| JNull
| JBool (b : bool)
| JNum (q : Q)
| JStr (s : string)
| JList (l : list json)
| JObj (o : list (string * json)).

Definition jobject : Type := list (string * json).

(** [o.get(k)] *)
Fixpoint obj_get (o : jobject) (k : string) : option json :=
  match o with
  | [] => None
  | (k', v) :: t => if String.eqb k' k then Some v else obj_get t k
  end.

(** [k in o] *)
Definition obj_mem (o : jobject) (k : string) : bool :=
  match obj_get o k with
  | Some _ => true
  | None => false
  end.

(** [o[k] = v]: an existing key keeps its place, a new key goes last. *)
Fixpoint obj_set (o : jobject) (k : string) (v : json) : jobject :=
  match o with
  | [] => [(k, v)]
  | (k', v') :: t =>
      if String.eqb k' k then (k', v) :: t else (k', v') :: obj_set t k v
  end.

(** [o.update(extra)] *)
Definition obj_update (o extra : jobject) : jobject :=
  fold_left (fun acc kv => obj_set acc (fst kv) (snd kv)) extra o.

(** [v == x] for a number [x]: numbers compare by value, [True] and
    [False] count as 1 and 0, a missing entry ([None]) and every other
    value differ from a number. *)
Definition eq_number (v : option json) (x : Q) : bool :=
  match v with
  | Some (JNum q) => Qeq_bool q x
  | Some (JBool b) => Qeq_bool (if b then 1 else 0) x
  | _ => false
  end.

(* ================================================================= *)
(** ** utils.py *)

Definition filter_instruments (instruments : list jobject)
    (strike : option Q) (expiration_timestamp : option Z) : list jobject :=
  let filtered := instruments in
  let filtered :=
    match strike with
    | Some s =>
        filter (fun inst => eq_number (obj_get inst "strike") s) filtered
    | None => filtered
    end in
  let filtered :=
    match expiration_timestamp with
    | Some e =>
        filter (fun inst => eq_number (obj_get inst "expiration_timestamp")
                                      (inject_Z e)) filtered
    | None => filtered
    end in
  filtered.

(** A frame built from records: the column labels, and one list of cells
    per record, a cell being empty where the record has no such key. *)
Record frame : Type := mkFrame {
  frame_columns : list string;
  frame_records : list (list (option json))
}.

(** The distinct labels, in order of first appearance. *)
Fixpoint distinct_labels (l : list string) : list string :=
  match l with
  | [] => []
  | x :: t => x :: filter (fun y => negb (String.eqb y x)) (distinct_labels t)
  end.

(** [pd.DataFrame(records)]: the columns are the keys of the records in
    order of first appearance, each record fills one row. *)
Definition DataFrame_of_records (records : list jobject) : frame :=
  let columns := distinct_labels (concat (map (map fst) records)) in
  mkFrame columns (map (fun r => map (obj_get r) columns) records).

(** [df.empty]: no row or no column. *)
Definition frame_empty (df : frame) : bool :=
  match frame_columns df, frame_records df with
  | [], _ | _, [] => true
  | _, _ => false
  end.

Definition json_to_dataframe (json_data : list jobject) : result frame :=
  match json_data with
  | [] => Raise (ValueError "Input JSON data is empty")
  | _ =>
      let df := DataFrame_of_records json_data in
      if frame_empty df then Raise (ValueError "Converted DataFrame is empty")
      else Ok df
  end.

(** Position of a label among the columns. *)
Fixpoint column_index (columns : list string) (c : string) : option nat :=
  match columns with
  | [] => None
  | x :: t =>
      if String.eqb x c then Some 0%nat
      else option_map S (column_index t c)
  end.

(** The cell of row [i] under column [c]; nothing when the row or the
    column does not exist or the cell is empty. *)
Definition frame_cell (df : frame) (i : nat) (c : string) : option json :=
  match nth_error (frame_records df) i, column_index (frame_columns df) c with
  | Some cells, Some j =>
      match nth_error cells j with
      | Some cell => cell
      | None => None
      end
  | _, _ => None
  end.

(* ================================================================= *)
(** ** data_fetcher.py *)

(** The exceptions of the fetcher: those of [exn], the [AttributeError] of
    a method looked up on a value that lacks it, and the [HTTPError] of
    [raise_for_status]. *)
Inductive fetch_exn : Type :=
| PyError (e : exn)
| AttributeError
| HTTPError.

Inductive outcome (A : Type) : Type :=
| Done (a : A)
| Fail (e : fetch_exn).

Arguments Done {A} a.
Arguments Fail {A} e.

Definition and_then {A B : Type} (m : outcome A) (k : A -> outcome B)
    : outcome B :=
  match m with
  | Done a => k a
  | Fail e => Fail e
  end.

Notation "x <~ m ;; k" := (and_then m (fun x => k))
  (at level 61, m at next level, right associativity).

Definition lift {A : Type} (r : result A) : outcome A :=
  match r with
  | Ok a => Done a
  | Raise e => Fail (PyError e)
  end.

(** One step of the loop of lines 20-22. *)
Definition add_missing (instrument : jobject) (kv : string * json) : jobject :=
  if obj_mem instrument (fst kv) then instrument
  else obj_set instrument (fst kv) (snd kv).

(** [instrument.get('stats', [])] must have [items]: only a dictionary
    has; the default list, used when the key is absent, has not. *)
Definition flatten_instrument (instrument : jobject) : outcome jobject :=
  match obj_get instrument "stats" with
  | Some (JObj stats) => Done (fold_left add_missing stats instrument)
  | _ => Fail AttributeError
  end.

Section Exchange.

(** The exchange, as seen through [requests.get(url).json()] after
    [raise_for_status]: a failed request, or the [result] entry of the
    body, absent or present.  The body is taken to be an object whose
    [result] is a list of instrument objects (get_instruments) or one
    object (ticker).  The ticker is asked by the value found under
    [instrument_name], from which the URL is formatted; [n] counts the
    ticker requests of one call, so successive answers may differ. *)
Variable instruments_api : outcome (option (list jobject)).
Variable ticker_api : nat -> json -> outcome (option jobject).

Definition invalid_response : fetch_exn :=
  PyError (ValueError "Invalid response format or no result found.").

Definition no_instruments : fetch_exn :=
  PyError (ValueError "No instruments found or invalid response format.").

Definition get_ticker (n : nat) (instrument_name : json)
    : outcome jobject :=
  data <~ ticker_api n instrument_name ;;
  match data with
  | Some ((_ :: _) as r) => flatten_instrument r
  | _ => Fail invalid_response
  end.

(** Lines 84-87: each filtered instrument is updated with its ticker, in
    order; the first failure ends the call. *)
Fixpoint update_with_tickers (n : nat) (instruments : list jobject)
    : outcome (list jobject) :=
  match instruments with
  | [] => Done []
  | instrument :: rest =>
      name <~ match obj_get instrument "instrument_name" with
              | Some v => Done v
              | None => Fail (PyError (KeyError "instrument_name"))
              end ;;
      extra_data <~ get_ticker n name ;;
      rest' <~ update_with_tickers (S n) rest ;;
      Done (obj_update instrument extra_data :: rest')
  end.

Definition get_btc_option_instruments (strike : option Q)
    (expiration_timestamp : option Z) : outcome frame :=
  data <~ instruments_api ;;
  match data with
  | Some ((_ :: _) as instruments) =>
      let filtered_instruments :=
        filter_instruments instruments strike expiration_timestamp in
      updated <~ update_with_tickers 0 filtered_instruments ;;
      lift (json_to_dataframe updated)
  | _ => Fail no_instruments
  end.

End Exchange.

(** Two option records with different keys. *)
Definition example_records : list jobject :=
  [[("instrument_name", JStr "BTC-27DEC24-10000-C"); ("strike", JNum 10000)];
   [("instrument_name", JStr "BTC-27DEC24-10500-C"); ("strike", JNum 10500);
    ("last_price", JNum (45 # 1000))]].

(** A ticker as the exchange returns it. *)
Definition example_ticker : jobject :=
  [("instrument_name", JStr "BTC-27DEC24-10000-C");
   ("last_price", JNum (7 # 100));
   ("volume", JNum 3);
   ("stats", JObj [("volume", JNum 12); ("high", JNum (8 # 100));
                   ("low", JNum (6 # 100))])].

(** Two instruments as the exchange lists them, and a ticker service that
    knows the first of them only. *)
Definition example_instruments : list jobject :=
  [[("instrument_name", JStr "BTC-27DEC24-10000-C");
    ("strike", JNum 10000);
    ("expiration_timestamp", JNum (inject_Z example_expiry));
    ("option_type", JStr "call");
    ("volume", JNum 0)];
   [("instrument_name", JStr "BTC-27DEC24-10500-C");
    ("strike", JNum 10500);
    ("expiration_timestamp", JNum (inject_Z example_expiry));
    ("option_type", JStr "call")]].

Definition example_ticker_api (n : nat) (name : json)
    : outcome (option jobject) :=
  match name with
  | JStr s =>
      if String.eqb s "BTC-27DEC24-10000-C" then Done (Some example_ticker)
      else Fail HTTPError
  | _ => Fail HTTPError
  end.

(* ================================================================= *)
(** * Properties *)

(** ** Comparisons *)

Lemma Qlt_bool_iff (a b : Q) : Qlt_bool a b = true <-> a < b.
Proof.
  unfold Qlt_bool. rewrite negb_true_iff.
  split; intro H.
  - apply Qnot_le_lt. intro Hle. apply Qle_bool_iff in Hle. congruence.
  - destruct (Qle_bool b a) eqn:E; [|reflexivity].
    apply Qle_bool_iff in E. lra.
Qed.

Lemma Qlt_bool_false (a b : Q) : Qlt_bool a b = false <-> b <= a.
Proof.
  unfold Qlt_bool. rewrite negb_false_iff. apply Qle_bool_iff.
Qed.

Lemma Qle_bool_false (a b : Q) : Qle_bool a b = false <-> b < a.
Proof.
  rewrite <- Qlt_bool_iff. unfold Qlt_bool.
  destruct (Qle_bool a b); simpl; intuition congruence.
Qed.

Ltac qbool :=
  repeat match goal with
  | H : Qle_bool _ _ = true |- _ => apply Qle_bool_iff in H
  | H : Qle_bool _ _ = false |- _ => apply Qle_bool_false in H
  | H : Qlt_bool _ _ = true |- _ => apply Qlt_bool_iff in H
  | H : Qlt_bool _ _ = false |- _ => apply Qlt_bool_false in H
  | H : Qeq_bool _ _ = true |- _ => apply Qeq_bool_iff in H
  | H : Qeq_bool _ _ = false |- _ => apply Qeq_bool_neq in H
  end.

(** ** Sorting and distinct values *)

Lemma insert_In (x y : Q) (l : list Q) :
  In y (insert x l) <-> y = x \/ In y l.
Proof.
  induction l as [|z t IH]; simpl.
  - intuition.
  - destruct (Qle_bool x z); simpl; rewrite ?IH; intuition.
Qed.

Lemma np_sort_In (y : Q) (l : list Q) : In y (np_sort l) <-> In y l.
Proof.
  induction l as [|x t IH]; simpl; [tauto|].
  rewrite insert_In, IH. intuition.
Qed.

Lemma insert_sorted (x : Q) (l : list Q) :
  StronglySorted Qle l -> StronglySorted Qle (insert x l).
Proof.
  induction 1 as [|z t Hs IH Hall]; simpl.
  - constructor; constructor.
  - destruct (Qle_bool x z) eqn:E; qbool.
    + constructor; [constructor; assumption|].
      constructor; [assumption|].
      rewrite Forall_forall in *. intros y Hy. specialize (Hall y Hy). lra.
    + constructor; [assumption|].
      rewrite Forall_forall in *. intros y Hy.
      apply insert_In in Hy. destruct Hy as [->|Hy]; [lra|auto].
Qed.

Lemma np_sort_sorted (l : list Q) : StronglySorted Qle (np_sort l).
Proof.
  induction l; simpl; [constructor|apply insert_sorted; assumption].
Qed.

Lemma unique_incl (y : Q) (l : list Q) : In y (unique l) -> In y l.
Proof.
  induction l as [|x t IH]; simpl; [tauto|].
  intros [->|H]; [auto|].
  apply filter_In in H. tauto.
Qed.

Lemma unique_complete (y : Q) (l : list Q) :
  In y l -> exists y', In y' (unique l) /\ y' == y.
Proof.
  induction l as [|x t IH]; simpl; [tauto|].
  intros [->|H].
  - exists y. split; [auto|reflexivity].
  - destruct (IH H) as (y' & Hin & Heq).
    destruct (Qeq_bool y' x) eqn:E; qbool.
    + exists x. split; [auto|]. rewrite <- E. assumption.
    + exists y'. split; [|assumption].
      right. apply filter_In. split; [assumption|].
      apply negb_true_iff. destruct (Qeq_bool y' x) eqn:E'; qbool; tauto.
Qed.

(** The strikes array holds exactly the strikes of the rows of the frame. *)
Lemma strikes_of_sound (df : DataFrame) (K : Q) :
  In K (strikes_of df) -> exists r, In r df /\ col_strike r = K.
Proof.
  unfold strikes_of. intro H.
  apply np_sort_In, unique_incl, in_map_iff in H.
  destruct H as (r & <- & Hr). eauto.
Qed.

Lemma strikes_of_complete (df : DataFrame) (r : row) :
  In r df -> exists K, In K (strikes_of df) /\ K == col_strike r.
Proof.
  intro H. unfold strikes_of.
  destruct (unique_complete (col_strike r) (map col_strike df))
    as (K & HK & Heq); [apply in_map; assumption|].
  exists K. split; [apply np_sort_In|]; assumption.
Qed.

Lemma strikes_of_sorted (df : DataFrame) : StronglySorted Qle (strikes_of df).
Proof. apply np_sort_sorted. Qed.

(** The strikes array is strictly ascending: sorted, without repetition. *)
Lemma filter_InA (f : Q -> bool) (y : Q) (l : list Q) :
  InA Qeq y (filter f l) -> InA Qeq y l.
Proof.
  induction l as [|x t IH]; cbn; [trivial|].
  destruct (f x); intro H.
  - inversion H; subst; [left; assumption|right; auto].
  - right. auto.
Qed.

Lemma filter_NoDupA (f : Q -> bool) (l : list Q) :
  NoDupA Qeq l -> NoDupA Qeq (filter f l).
Proof.
  induction 1 as [|x t Hx Ht IH]; cbn; [constructor|].
  destruct (f x); [|assumption].
  constructor; [|assumption].
  intro H. apply Hx. eapply filter_InA. eassumption.
Qed.

Lemma unique_NoDupA (l : list Q) : NoDupA Qeq (unique l).
Proof.
  induction l as [|x t IH]; cbn; [constructor|].
  constructor; [|apply filter_NoDupA; assumption].
  intro H. apply InA_alt in H. destruct H as (y & Hxy & Hy).
  apply filter_In in Hy. destruct Hy as [_ Hy].
  apply negb_true_iff in Hy. qbool. apply Hy. symmetry. assumption.
Qed.

Lemma insert_strictly_sorted (x : Q) (l : list Q) :
  StronglySorted Qlt l -> ~ InA Qeq x l -> StronglySorted Qlt (insert x l).
Proof.
  induction 1 as [|z t Hs IH Hall]; cbn [insert]; intro Hx.
  - constructor; constructor.
  - assert (Hxz : ~ x == z) by (intro E; apply Hx; left; assumption).
    assert (Hxt : ~ InA Qeq x t) by (intro E; apply Hx; right; assumption).
    rewrite Forall_forall in Hall.
    destruct (Qle_bool x z) eqn:E; qbool.
    + constructor; [constructor; [assumption|apply Forall_forall; assumption]|].
      constructor; [lra|].
      apply Forall_forall. intros y Hy. specialize (Hall y Hy). lra.
    + constructor; [auto|].
      apply Forall_forall. intros y Hy.
      apply insert_In in Hy. destruct Hy as [->|Hy]; [lra|auto].
Qed.

Lemma np_sort_strictly_sorted (l : list Q) :
  NoDupA Qeq l -> StronglySorted Qlt (np_sort l).
Proof.
  induction 1 as [|x t Hx Ht IH]; cbn [np_sort fold_right]; [constructor|].
  apply insert_strictly_sorted; [assumption|].
  intro H. apply Hx. apply InA_alt in H. destruct H as (y & Hxy & Hy).
  apply InA_alt. exists y. split; [assumption|].
  apply np_sort_In. assumption.
Qed.

Lemma strikes_of_strictly_sorted (df : DataFrame) :
  StronglySorted Qlt (strikes_of df).
Proof. apply np_sort_strictly_sorted, unique_NoDupA. Qed.

Lemma df_of_class_In (tbl : DataFrame) (cls : string) (e : Z) (r : row) :
  In r (df_of_class tbl cls e) <->
  In r tbl /\ col_expiration_timestamp r = e /\ col_option_type r = cls.
Proof.
  unfold df_of_class. rewrite !filter_In, Z.eqb_eq, String.eqb_eq. tauto.
Qed.

(** ** Insertion points *)

Lemma searchsorted_left_range (a : list Q) (v : Q) :
  (0 <= searchsorted_left a v <= len a)%Z.
Proof.
  unfold len. induction a as [|x t IH];
    cbn [List.length searchsorted_left searchsorted_right];
    rewrite ?Nat2Z.inj_succ; [lia|].
  destruct (Qlt_bool x v); lia.
Qed.

Lemma searchsorted_right_range (a : list Q) (v : Q) :
  (0 <= searchsorted_right a v <= len a)%Z.
Proof.
  unfold len. induction a as [|x t IH];
    cbn [List.length searchsorted_left searchsorted_right];
    rewrite ?Nat2Z.inj_succ; [lia|].
  destruct (Qle_bool x v); lia.
Qed.

(** In bounds, the left insertion point holds the least element that is
    at least [v]. *)
Lemma searchsorted_left_spec (a : list Q) (v : Q) :
  StronglySorted Qle a ->
  (searchsorted_left a v < len a)%Z ->
  exists x, nth_error a (Z.to_nat (searchsorted_left a v)) = Some x
            /\ v <= x
            /\ forall y, In y a -> v <= y -> x <= y.
Proof.
  unfold len. induction 1 as [|x t Hs IH Hall];
    cbn [List.length searchsorted_left searchsorted_right];
    rewrite ?Nat2Z.inj_succ.
  - lia.
  - pose proof (searchsorted_left_range t v) as Hr. unfold len in Hr.
    destruct (Qlt_bool x v) eqn:E; qbool; intro Hlt.
    + destruct IH as (k & Hk & Hv & Hmin); [lia|].
      exists k. split; [|split; [assumption|]].
      * replace (Z.to_nat (1 + searchsorted_left t v))
          with (S (Z.to_nat (searchsorted_left t v))) by lia.
        assumption.
      * intros y [<-|Hy] Hvy; [lra|auto].
    + exists x. split; [reflexivity|split; [assumption|]].
      rewrite Forall_forall in Hall.
      intros y [<-|Hy] _; [lra|auto].
Qed.

(** With at least one element not above [v], the slot before the right
    insertion point holds the greatest such element. *)
Lemma searchsorted_right_spec (a : list Q) (v : Q) :
  StronglySorted Qle a ->
  (0 <= searchsorted_right a v - 1)%Z ->
  exists x, nth_error a (Z.to_nat (searchsorted_right a v - 1)) = Some x
            /\ x <= v
            /\ forall y, In y a -> y <= v -> y <= x.
Proof.
  induction 1 as [|x t Hs IH Hall]; cbn [searchsorted_right].
  - lia.
  - pose proof (searchsorted_right_range t v) as Hr.
    destruct (Qle_bool x v) eqn:E; qbool; intro Hlt; [|lia].
    rewrite Forall_forall in Hall.
    destruct (Z.eq_dec (searchsorted_right t v) 0) as [Hz|Hz].
    + rewrite Hz. exists x. split; [reflexivity|split; [assumption|]].
      intros y [<-|Hy] Hyv; [lra|].
      exfalso. destruct t as [|z t']; [destruct Hy|].
      cbn [searchsorted_right] in Hz. destruct (Qle_bool z v) eqn:Ez; qbool.
      * pose proof (searchsorted_right_range t' v). lia.
      * inversion Hs as [|? ? _ Hall']; subst.
        rewrite Forall_forall in Hall'.
        destruct Hy as [<-|Hy]; [lra|]. specialize (Hall' y Hy). lra.
    + destruct IH as (k & Hk & Hv & Hmax); [lia|].
      exists k. split; [|split; [assumption|]].
      * replace (Z.to_nat (1 + searchsorted_right t v - 1))
          with (S (Z.to_nat (searchsorted_right t v - 1))) by lia.
        assumption.
      * intros y [Hxy|Hy] Hyv; [|auto].
        subst y. apply Hall. eapply nth_error_In; eassumption.
Qed.

Lemma searchsorted_left_all_below (a : list Q) (v : Q) :
  (forall y, In y a -> y < v) -> searchsorted_left a v = len a.
Proof.
  unfold len. induction a as [|x t IH];
    cbn [List.length searchsorted_left searchsorted_right];
    rewrite ?Nat2Z.inj_succ; intro H.
  - reflexivity.
  - destruct (Qlt_bool x v) eqn:E; qbool.
    + rewrite IH by (intros y Hy; apply H; right; assumption). lia.
    + specialize (H x (or_introl eq_refl)). lra.
Qed.

Lemma searchsorted_right_all_above (a : list Q) (v : Q) :
  (forall y, In y a -> v < y) -> searchsorted_right a v = 0%Z.
Proof.
  destruct a as [|x t]; simpl; intro H; [reflexivity|].
  destruct (Qle_bool x v) eqn:E; qbool; [|reflexivity].
  specialize (H x (or_introl eq_refl)). lra.
Qed.

Lemma np_getitem_nth (a : list Q) (i : Z) (x : Q) :
  (0 <= i)%Z -> nth_error a (Z.to_nat i) = Some x -> np_getitem a i = Ok x.
Proof.
  intros Hi Hn. unfold np_getitem.
  assert (Hlt : (i < len a)%Z).
  { unfold len.
    assert (Hs : (Z.to_nat i < List.length a)%nat)
      by (apply nth_error_Some; congruence).
    lia. }
  destruct (Z.ltb_spec i 0); [lia|].
  destruct (Z.leb_spec 0 i); [|lia].
  destruct (Z.ltb_spec i (len a)); [|lia].
  simpl. rewrite Hn. reflexivity.
Qed.

(** ** The strike selector *)

Lemma available_strikes_of (tbl : DataFrame) (cls : string) (e : Z) (K : Q) :
  In K (strikes_of (df_of_class tbl cls e)) -> available tbl cls e K.
Proof.
  intro H. apply strikes_of_sound in H. destruct H as (r & Hr & HK).
  apply df_of_class_In in Hr. exists r. tauto.
Qed.

Lemma strikes_of_available (tbl : DataFrame) (cls : string) (e : Z) (r : row) :
  In r tbl -> col_expiration_timestamp r = e -> col_option_type r = cls ->
  exists K, In K (strikes_of (df_of_class tbl cls e)) /\ K == col_strike r.
Proof.
  intros. apply strikes_of_complete. apply df_of_class_In. tauto.
Qed.

Lemma select_call_spec (strikes : list Q) (t p : Q) :
  StronglySorted Qle strikes ->
  (searchsorted_left strikes t < len strikes)%Z ->
  (searchsorted_left strikes (t + p) < len strikes)%Z ->
  exists K1 K2,
    select_call strikes t p = Ok (K1, K2)
    /\ In K1 strikes /\ t <= K1
    /\ (forall y, In y strikes -> t <= y -> K1 <= y)
    /\ In K2 strikes /\ t + p <= K2
    /\ (forall y, In y strikes -> t + p <= y -> K2 <= y).
Proof.
  intros Hs H1 H2.
  destruct (searchsorted_left_spec strikes t Hs H1) as (K1 & Hn1 & Hv1 & Hm1).
  destruct (searchsorted_left_spec strikes (t + p) Hs H2)
    as (K2 & Hn2 & Hv2 & Hm2).
  exists K1, K2. unfold select_call.
  destruct (Z.geb_spec (searchsorted_left strikes t) (len strikes)); [lia|].
  destruct (Z.geb_spec (searchsorted_left strikes (t + p)) (len strikes));
    [lia|].
  cbn [orb].
  rewrite (np_getitem_nth _ _ K1), (np_getitem_nth _ _ K2);
    try assumption; try apply searchsorted_left_range.
  repeat split; try assumption; eapply nth_error_In; eassumption.
Qed.

Lemma select_put_spec (strikes : list Q) (t p : Q) :
  StronglySorted Qle strikes ->
  (0 <= searchsorted_right strikes (t - p) - 1)%Z ->
  (0 <= searchsorted_right strikes t - 1)%Z ->
  exists K1 K2,
    select_put strikes t p = Ok (K1, K2)
    /\ In K1 strikes /\ K1 <= t - p
    /\ (forall y, In y strikes -> y <= t - p -> y <= K1)
    /\ In K2 strikes /\ K2 <= t
    /\ (forall y, In y strikes -> y <= t -> y <= K2).
Proof.
  intros Hs H1 H2.
  destruct (searchsorted_right_spec strikes (t - p) Hs H1)
    as (K1 & Hn1 & Hv1 & Hm1).
  destruct (searchsorted_right_spec strikes t Hs H2) as (K2 & Hn2 & Hv2 & Hm2).
  exists K1, K2. unfold select_put.
  destruct (Z.ltb_spec (searchsorted_right strikes (t - p) - 1) 0); [lia|].
  destruct (Z.ltb_spec (searchsorted_right strikes t - 1) 0); [lia|].
  cbn [orb].
  rewrite (np_getitem_nth _ _ K1), (np_getitem_nth _ _ K2); try assumption.
  repeat split; try assumption; eapply nth_error_In; eassumption.
Qed.

(** A successful selection passed the bounds check of its branch. *)
Lemma select_call_ok_bounds (strikes : list Q) (t p : Q) (K : Q * Q) :
  select_call strikes t p = Ok K ->
  (searchsorted_left strikes t < len strikes)%Z
  /\ (searchsorted_left strikes (t + p) < len strikes)%Z.
Proof.
  unfold select_call.
  destruct (Z.geb_spec (searchsorted_left strikes t) (len strikes));
    [discriminate|].
  destruct (Z.geb_spec (searchsorted_left strikes (t + p)) (len strikes));
    [discriminate|].
  intros _. split; assumption.
Qed.

Lemma select_put_ok_bounds (strikes : list Q) (t p : Q) (K : Q * Q) :
  select_put strikes t p = Ok K ->
  (0 <= searchsorted_right strikes (t - p) - 1)%Z
  /\ (0 <= searchsorted_right strikes t - 1)%Z.
Proof.
  unfold select_put.
  destruct (Z.ltb_spec (searchsorted_right strikes (t - p) - 1) 0);
    [discriminate|].
  destruct (Z.ltb_spec (searchsorted_right strikes t - 1) 0);
    [discriminate|].
  intros _. split; assumption.
Qed.

Ltac in_example :=
  match goal with
  | H : available _ _ _ _ |- _ =>
      let r := fresh "r" in
      let Hin := fresh "Hin" in
      let He := fresh "He" in
      let Hc := fresh "Hc" in
      let HK := fresh "HK" in
      destruct H as (r & Hin & He & Hc & HK);
      simpl in Hin;
      repeat (destruct Hin as [Hin|Hin]; [subst r|]);
      try contradiction; subst; cbn in *; try discriminate
  end.

(** C2 (amended). Call case: with both insertion indices in bounds, the
    selector returns as K1 the smallest available strike that is at least
    the target and as K2 the smallest available strike that is at least
    target + precision; K1 <= K2 holds when the precision is not negative. *)
Theorem call_selector_least_strikes (tbl : DataFrame) (t p : Q) (e : Z) :
  (searchsorted_left (strikes_of (df_of_class tbl "call" e)) t
   < len (strikes_of (df_of_class tbl "call" e)))%Z ->
  (searchsorted_left (strikes_of (df_of_class tbl "call" e)) (t + p)
   < len (strikes_of (df_of_class tbl "call" e)))%Z ->
  exists K1 K2,
    selected_strikes tbl "call" t e p = Ok (K1, K2)
    /\ available tbl "call" e K1 /\ t <= K1
    /\ (forall K, available tbl "call" e K -> t <= K -> K1 <= K)
    /\ available tbl "call" e K2 /\ t + p <= K2
    /\ (forall K, available tbl "call" e K -> t + p <= K -> K2 <= K)
    /\ (0 <= p -> K1 <= K2).
Proof.
  intros H1 H2.
  destruct (select_call_spec _ t p (strikes_of_sorted _) H1 H2)
    as (K1 & K2 & Hsel & Hin1 & Hle1 & Hmin1 & Hin2 & Hle2 & Hmin2).
  exists K1, K2.
  assert (Hlift : forall v K0,
             (forall y, In y (strikes_of (df_of_class tbl "call" e)) ->
                        v <= y -> K0 <= y) ->
             forall K, available tbl "call" e K -> v <= K -> K0 <= K).
  { intros v K0 Hmin K (r & Hr & He & Hc & HK) HvK.
    destruct (strikes_of_available tbl "call" e r Hr He Hc) as (K' & HK' & Heq).
    rewrite HK in Heq. rewrite <- Heq in *. auto. }
  split; [exact Hsel|].
  split; [apply available_strikes_of; assumption|].
  split; [assumption|].
  split; [apply Hlift; assumption|].
  split; [apply available_strikes_of; assumption|].
  split; [assumption|].
  split; [apply Hlift; assumption|].
  intro Hp. apply Hmin1; [assumption|lra].
Qed.

Lemma call_selector_least_strikes_witness :
  exists K1 K2,
    selected_strikes example_table "call" 10000 example_expiry 500
    = Ok (K1, K2)
    /\ available example_table "call" example_expiry K1 /\ 10000 <= K1
    /\ (forall K, available example_table "call" example_expiry K ->
                  10000 <= K -> K1 <= K)
    /\ available example_table "call" example_expiry K2
    /\ 10000 + 500 <= K2
    /\ (forall K, available example_table "call" example_expiry K ->
                  10000 + 500 <= K -> K2 <= K)
    /\ (0 <= 500 -> K1 <= K2).
Proof.
  apply (call_selector_least_strikes example_table 10000 500 example_expiry);
    vm_compute; reflexivity.
Defined.

(** C2 as stated fails for a negative precision: the strike chosen for
    target + precision lies below the one chosen for the target. *)
Lemma call_selector_order_counterexample :
  (searchsorted_left
     (strikes_of (df_of_class example_table "call" example_expiry)) 10000
   < len (strikes_of (df_of_class example_table "call" example_expiry)))%Z
  /\ (searchsorted_left
        (strikes_of (df_of_class example_table "call" example_expiry))
        (10000 + -500)
      < len (strikes_of (df_of_class example_table "call" example_expiry)))%Z
  /\ selected_strikes example_table "call" 10000 example_expiry (-500)
     = Ok (10000, 9500)
  /\ ~ 10000 <= 9500.
Proof.
  repeat split; try (vm_compute; reflexivity).
  intro H. vm_compute in H. apply H. reflexivity.
Qed.

(** C3 (amended). Put case: with both indices non-negative, the selector
    returns as K2 the largest available strike that is at most the target
    and as K1 the largest available strike that is at most
    target - precision; K1 <= K2 holds when the precision is not negative. *)
Theorem put_selector_greatest_strikes (tbl : DataFrame) (t p : Q) (e : Z) :
  (0 <= searchsorted_right (strikes_of (df_of_class tbl "put" e)) (t - p) - 1)%Z
  ->
  (0 <= searchsorted_right (strikes_of (df_of_class tbl "put" e)) t - 1)%Z ->
  exists K1 K2,
    selected_strikes tbl "put" t e p = Ok (K1, K2)
    /\ available tbl "put" e K2 /\ K2 <= t
    /\ (forall K, available tbl "put" e K -> K <= t -> K <= K2)
    /\ available tbl "put" e K1 /\ K1 <= t - p
    /\ (forall K, available tbl "put" e K -> K <= t - p -> K <= K1)
    /\ (0 <= p -> K1 <= K2).
Proof.
  intros H1 H2.
  destruct (select_put_spec _ t p (strikes_of_sorted _) H1 H2)
    as (K1 & K2 & Hsel & Hin1 & Hle1 & Hmax1 & Hin2 & Hle2 & Hmax2).
  exists K1, K2.
  assert (Hlift : forall v K0,
             (forall y, In y (strikes_of (df_of_class tbl "put" e)) ->
                        y <= v -> y <= K0) ->
             forall K, available tbl "put" e K -> K <= v -> K <= K0).
  { intros v K0 Hmax K (r & Hr & He & Hc & HK) HvK.
    destruct (strikes_of_available tbl "put" e r Hr He Hc) as (K' & HK' & Heq).
    rewrite HK in Heq. rewrite <- Heq in *. auto. }
  split; [exact Hsel|].
  split; [apply available_strikes_of; assumption|].
  split; [assumption|].
  split; [apply Hlift; assumption|].
  split; [apply available_strikes_of; assumption|].
  split; [assumption|].
  split; [apply Hlift; assumption|].
  intro Hp. apply Hmax2; [assumption|lra].
Qed.

Lemma put_selector_greatest_strikes_witness :
  exists K1 K2,
    selected_strikes example_table "put" 10000 example_expiry 500
    = Ok (K1, K2)
    /\ available example_table "put" example_expiry K2 /\ K2 <= 10000
    /\ (forall K, available example_table "put" example_expiry K ->
                  K <= 10000 -> K <= K2)
    /\ available example_table "put" example_expiry K1
    /\ K1 <= 10000 - 500
    /\ (forall K, available example_table "put" example_expiry K ->
                  K <= 10000 - 500 -> K <= K1)
    /\ (0 <= 500 -> K1 <= K2).
Proof.
  apply (put_selector_greatest_strikes example_table 10000 500 example_expiry);
    vm_compute; intro; discriminate.
Defined.

(** C3 as stated fails for a negative precision. *)
Lemma put_selector_order_counterexample :
  (0 <= searchsorted_right
          (strikes_of (df_of_class example_table "put" example_expiry))
          (10000 - -500) - 1)%Z
  /\ (0 <= searchsorted_right
             (strikes_of (df_of_class example_table "put" example_expiry))
             10000 - 1)%Z
  /\ selected_strikes example_table "put" 10000 example_expiry (-500)
     = Ok (10500, 10000)
  /\ ~ 10500 <= 10000.
Proof.
  repeat split; try (vm_compute; reflexivity); try (vm_compute; discriminate).
  intro H. vm_compute in H. apply H. reflexivity.
Qed.

(** ** Failure of the selection *)

Lemma select_call_none (strikes : list Q) (t p : Q) :
  (forall y, In y strikes -> y < t + p) ->
  select_call strikes t p = Raise no_suitable_strikes.
Proof.
  intro H. unfold select_call.
  rewrite (searchsorted_left_all_below strikes (t + p) H).
  destruct (Z.geb_spec (len strikes) (len strikes)); [|lia].
  rewrite orb_true_r. reflexivity.
Qed.

Lemma select_put_none (strikes : list Q) (t p : Q) :
  (forall y, In y strikes -> t - p < y) ->
  select_put strikes t p = Raise no_suitable_strikes.
Proof.
  intro H. unfold select_put.
  rewrite (searchsorted_right_all_above strikes (t - p) H).
  reflexivity.
Qed.

(** C8. When no available strike is at least target + precision (call) or
    none is at most target - precision (put), the call raises the
    "No suitable strikes" error and returns no result. *)
Theorem no_bracketing_strike_raises (tbl : DataFrame) (ot : string)
    (t p : Q) (e : Z) :
  (ot = "call" /\ forall K, available tbl "call" e K -> ~ t + p <= K)
  \/ (ot = "put" /\ forall K, available tbl "put" e K -> ~ K <= t - p) ->
  replicate_binary_option tbl ot t e p = Raise no_suitable_strikes.
Proof.
  intros [[-> H]|[-> H]]; unfold replicate_binary_option; cbn [String.eqb].
  - rewrite select_call_none; [reflexivity|].
    intros y Hy. apply Qnot_le_lt, H, available_strikes_of, Hy.
  - change ("put" =? "call") with false. change ("put" =? "put") with true.
    cbv iota. rewrite select_put_none; [reflexivity|].
    intros y Hy. apply Qnot_le_lt, H, available_strikes_of, Hy.
Qed.

Lemma no_bracketing_strike_raises_witness :
  replicate_binary_option example_table "call" 10800 example_expiry 500
  = Raise no_suitable_strikes
  /\ replicate_binary_option example_table "put" 9400 example_expiry 500
     = Raise no_suitable_strikes.
Proof.
  split.
  - apply (no_bracketing_strike_raises example_table "call" 10800 500
                                       example_expiry).
    left. split; [reflexivity|].
    intros K HK. in_example; intro Hle; vm_compute in Hle; congruence.
  - apply (no_bracketing_strike_raises example_table "put" 9400 500
                                       example_expiry).
    right. split; [reflexivity|].
    intros K HK. in_example; intro Hle; vm_compute in Hle; congruence.
Defined.

(** ** The returned dictionary *)

Lemma first_with_strike_ok (df : DataFrame) (K : Q) :
  In K (strikes_of df) ->
  exists r, first_with_strike df K = Ok r /\ In r df /\ col_strike r == K.
Proof.
  intro H. apply strikes_of_sound in H. destruct H as (r0 & Hr0 & HK).
  unfold first_with_strike.
  destruct (filter (fun r => Qeq_bool (col_strike r) K) df) as [|r f] eqn:E.
  - assert (Hin : In r0 (filter (fun r => Qeq_bool (col_strike r) K) df)).
    { apply filter_In. split; [assumption|].
      apply Qeq_bool_iff. rewrite HK. reflexivity. }
    rewrite E in Hin. destruct Hin.
  - assert (Hin : In r (filter (fun r => Qeq_bool (col_strike r) K) df))
      by (rewrite E; left; reflexivity).
    apply filter_In in Hin. destruct Hin as [Hin Heq].
    exists r. cbn. repeat split; [assumption|]. apply Qeq_bool_iff, Heq.
Qed.

(** The function is the selection followed by the construction of the
    dictionary on the frame of the requested class. *)
Lemma replicate_binary_option_eq (tbl : DataFrame) (ot : string) (t p : Q)
    (e : Z) :
  replicate_binary_option tbl ot t e p =
  ('(K1, K2) <- selected_strikes tbl ot t e p ;;
   build_result (df_of_class tbl ot e) ot (kind_letter ot) K1 K2).
Proof.
  unfold replicate_binary_option, selected_strikes, kind_letter.
  destruct (String.eqb_spec ot "call") as [->|Hc]; [reflexivity|].
  destruct (String.eqb_spec ot "put") as [->|Hp]; reflexivity.
Qed.

Lemma selected_strikes_in (tbl : DataFrame) (ot : string) (t p : Q) (e : Z)
    (K1 K2 : Q) :
  selected_strikes tbl ot t e p = Ok (K1, K2) ->
  In K1 (strikes_of (df_of_class tbl ot e))
  /\ In K2 (strikes_of (df_of_class tbl ot e)).
Proof.
  unfold selected_strikes.
  destruct (String.eqb_spec ot "call") as [->|Hc].
  - intro H. destruct (select_call_ok_bounds _ _ _ _ H) as [H1 H2].
    destruct (select_call_spec _ t p (strikes_of_sorted _) H1 H2)
      as (K1' & K2' & Hsel & Hin1 & _ & _ & Hin2 & _).
    rewrite H in Hsel. injection Hsel as <- <-. tauto.
  - destruct (String.eqb_spec ot "put") as [->|Hp]; [|discriminate].
    intro H. destruct (select_put_ok_bounds _ _ _ _ H) as [H1 H2].
    destruct (select_put_spec _ t p (strikes_of_sorted _) H1 H2)
      as (K1' & K2' & Hsel & Hin1 & _ & _ & Hin2 & _).
    rewrite H in Hsel. injection Hsel as <- <-. tauto.
Qed.

(** A replication succeeds exactly when its selection does, and then
    returns the dictionary built from the first rows at the two strikes. *)
Lemma replicate_ok_iff (tbl : DataFrame) (ot : string) (t p : Q) (e : Z)
    (d : dict) :
  replicate_binary_option tbl ot t e p = Ok d <->
  exists K1 K2 opt1 opt2,
    selected_strikes tbl ot t e p = Ok (K1, K2)
    /\ first_with_strike (df_of_class tbl ot e) K1 = Ok opt1
    /\ first_with_strike (df_of_class tbl ot e) K2 = Ok opt2
    /\ d = result_dict ot (kind_letter ot) K1 K2 opt1 opt2.
Proof.
  rewrite replicate_binary_option_eq. split.
  - destruct (selected_strikes tbl ot t e p) as [[K1 K2]|err] eqn:Es;
      [|discriminate].
    cbn [bind]. unfold build_result.
    destruct (first_with_strike (df_of_class tbl ot e) K1) as [o1|] eqn:E1;
      [|discriminate].
    destruct (first_with_strike (df_of_class tbl ot e) K2) as [o2|] eqn:E2;
      [|discriminate].
    cbn [bind]. intro H. injection H as <-.
    exists K1, K2, o1, o2. repeat split; assumption.
  - intros (K1 & K2 & o1 & o2 & -> & H1 & H2 & ->).
    cbn [bind]. unfold build_result. rewrite H1, H2. reflexivity.
Qed.

Lemma selected_replicates (tbl : DataFrame) (ot : string) (t p : Q) (e : Z)
    (K1 K2 : Q) :
  selected_strikes tbl ot t e p = Ok (K1, K2) ->
  exists d, replicate_binary_option tbl ot t e p = Ok d.
Proof.
  intro H. destruct (selected_strikes_in _ _ _ _ _ _ _ H) as [H1 H2].
  destruct (first_with_strike_ok _ _ H1) as (o1 & Ho1 & _).
  destruct (first_with_strike_ok _ _ H2) as (o2 & Ho2 & _).
  exists (result_dict ot (kind_letter ot) K1 K2 o1 o2).
  apply replicate_ok_iff. exists K1, K2, o1, o2. auto.
Qed.

(** C5. For a successful replication with K1 <> K2 the returned weights
    are 1/(K2 - K1) and -1/(K2 - K1), they add up to zero, and the returned
    total cost is weight_1 * price_1 + weight_2 * price_2, the prices being
    the last prices of the two selected rows, returned as the legs' costs. *)
Theorem weights_and_total_cost (tbl : DataFrame) (ot : string) (t p : Q)
    (e : Z) (d : dict) (K1 K2 : Q) :
  replicate_binary_option tbl ot t e p = Ok d ->
  selected_strikes tbl ot t e p = Ok (K1, K2) ->
  ~ K1 == K2 ->
  exists opt1 opt2,
    first_with_strike (df_of_class tbl ot e) K1 = Ok opt1
    /\ first_with_strike (df_of_class tbl ot e) K2 = Ok opt2
    /\ weight_of d "option_1" = Ok (Finite (1 / (K2 - K1)))
    /\ weight_of d "option_2" = Ok (Finite ((-1) / (K2 - K1)))
    /\ 1 / (K2 - K1) + (-1) / (K2 - K1) == 0
    /\ cost_of d "option_1" = Ok (Finite (col_last_price opt1))
    /\ cost_of d "option_2" = Ok (Finite (col_last_price opt2))
    /\ total_cost_of d
       = Ok (Finite (1 / (K2 - K1) * col_last_price opt1
                     + (-1) / (K2 - K1) * col_last_price opt2)).
Proof.
  intros Hd Hsel Hne.
  apply replicate_ok_iff in Hd.
  destruct Hd as (K1' & K2' & o1 & o2 & Hsel' & Ho1 & Ho2 & ->).
  rewrite Hsel in Hsel'. injection Hsel' as <- <-.
  assert (Hz : Qeq_bool (K2 - K1) 0 = false).
  { destruct (Qeq_bool (K2 - K1) 0) eqn:E; [|reflexivity].
    apply Qeq_bool_iff in E. exfalso. apply Hne. lra. }
  exists o1, o2.
  split; [assumption|]. split; [assumption|].
  unfold weight_of, cost_of, total_cost_of, result_dict.
  cbn. rewrite Hz.
  split; [reflexivity|]. split; [reflexivity|].
  split; [field; intro Hk; apply Hne; lra|].
  split; [reflexivity|]. split; reflexivity.
Qed.

Lemma weights_and_total_cost_witness :
  exists opt1 opt2,
    first_with_strike (df_of_class example_table "call" example_expiry) 10000
    = Ok opt1
    /\ first_with_strike (df_of_class example_table "call" example_expiry)
                         10500
       = Ok opt2
    /\ weight_of example_call_replication "option_1"
       = Ok (Finite (1 / (10500 - 10000)))
    /\ weight_of example_call_replication "option_2"
       = Ok (Finite ((-1) / (10500 - 10000)))
    /\ 1 / (10500 - 10000) + (-1) / (10500 - 10000) == 0
    /\ cost_of example_call_replication "option_1"
       = Ok (Finite (col_last_price opt1))
    /\ cost_of example_call_replication "option_2"
       = Ok (Finite (col_last_price opt2))
    /\ total_cost_of example_call_replication
       = Ok (Finite (1 / (10500 - 10000) * col_last_price opt1
                     + (-1) / (10500 - 10000) * col_last_price opt2)).
Proof.
  apply (weights_and_total_cost example_table "call" 10000 500 example_expiry).
  - vm_compute. reflexivity.
  - vm_compute. reflexivity.
  - intro H. vm_compute in H. discriminate.
Defined.

(** ** The payoff curves *)

Lemma map_combine_map {A B C D : Type} (f : B * C -> D) (g1 : A -> B)
    (g2 : A -> C) (l : list A) :
  map f (combine (map g1 l) (map g2 l)) = map (fun a => f (g1 a, g2 a)) l.
Proof.
  induction l as [|a l IH]; cbn; [reflexivity|]. rewrite IH. reflexivity.
Qed.

(** With readable strikes and weights and a valid class, the evaluator
    returns the price range and the two curves computed pointwise. *)
Lemma plot_binary_replication_payoff_ok (strike : Q) (ot : string) (d : dict)
    (pr : option (list Q)) (K1 K2 w1 w2 : float64) :
  ot = "call" \/ ot = "put" ->
  recover_strikes strike d = Ok (K1, K2) ->
  weight_of d "option_1" = Ok w1 ->
  weight_of d "option_2" = Ok w2 ->
  plot_binary_replication_payoff strike ot d pr =
  let range := match pr with
               | None => default_price_range strike
               | Some r => r
               end in
  Ok (mkCurve range (map (ideal_at ot strike) range)
              (map (replicated_at ot w1 w2 K1 K2) range)).
Proof.
  intros Hot HK Hw1 Hw2.
  unfold plot_binary_replication_payoff.
  rewrite HK. cbn [bind].
  destruct Hot as [->| ->].
  - change ("call" =? "call") with true. cbv iota. cbn [bind].
    rewrite Hw1, Hw2. cbn [bind]. rewrite map_combine_map. reflexivity.
  - change ("put" =? "call") with false. change ("put" =? "put") with true.
    cbv iota. cbn [bind].
    rewrite Hw1, Hw2. cbn [bind]. rewrite map_combine_map. reflexivity.
Qed.

Lemma linspace_length (start stop : Q) (n : nat) :
  List.length (linspace start stop n) = n.
Proof. unfold linspace. rewrite length_map, length_seq. reflexivity. Qed.

Lemma linspace_nth (start stop : Q) (n i : nat) :
  (i < n)%nat ->
  nth i (linspace start stop n) 0
  = start + inject_Z (Z.of_nat i)
            * ((stop - start) / inject_Z (Z.of_nat (n - 1))).
Proof.
  intro Hi. unfold linspace.
  set (f := fun j : nat => start + inject_Z (Z.of_nat j)
                 * ((stop - start) / inject_Z (Z.of_nat (n - 1)))).
  rewrite (nth_indep _ 0 (f 0%nat)) by (rewrite length_map, length_seq; lia).
  rewrite map_nth, seq_nth by lia. reflexivity.
Qed.

Lemma call_payoff_finite (S K : Q) :
  call_payoff S (Finite K)
  = Finite (if Qle_bool (S - K) 0 then 0 else S - K).
Proof.
  unfold call_payoff, f_sub, f_add, f_neg, f_maximum. fold (S - K).
  destruct (Qle_bool (S - K) 0); reflexivity.
Qed.

Lemma put_payoff_finite (S K : Q) :
  put_payoff S (Finite K)
  = Finite (if Qle_bool (K - S) 0 then 0 else K - S).
Proof.
  unfold put_payoff, f_sub, f_add, f_neg, f_maximum. fold (K - S).
  destruct (Qle_bool (K - S) 0); reflexivity.
Qed.

Lemma default_price_range_nth (strike : Q) (i : nat) :
  (i < 500)%nat ->
  nth i (default_price_range strike) 0
  == (1 # 2) * strike + inject_Z (Z.of_nat i) * (strike / 499).
Proof.
  intro Hi. unfold default_price_range. rewrite linspace_nth by assumption.
  change (inject_Z (Z.of_nat (500 - 1))) with 499. field.
Qed.

Lemma default_price_range_first (strike : Q) :
  nth 0 (default_price_range strike) 0 == (1 # 2) * strike.
Proof.
  rewrite default_price_range_nth by lia.
  change (inject_Z (Z.of_nat 0)) with 0. field.
Qed.

Lemma default_price_range_last (strike : Q) :
  nth 499 (default_price_range strike) 0 == (3 # 2) * strike.
Proof.
  rewrite default_price_range_nth by lia.
  change (inject_Z (Z.of_nat 499)) with 499. field.
Qed.

Lemma example_call_replication_eq :
  replicate_binary_option example_table "call" 10000 example_expiry
                          default_replication_precision
  = Ok example_call_replication.
Proof. vm_compute. reflexivity. Qed.

Lemma example_put_replication_eq :
  replicate_binary_option example_table "put" 10000 example_expiry
                          default_replication_precision
  = Ok example_put_replication.
Proof. vm_compute. reflexivity. Qed.

(** ** The spread outside its two strikes *)

Lemma spread_weights (K1 K2 : Q) :
  K1 < K2 ->
  f_div (Finite 1) (Finite (K2 - K1)) = Finite (1 / (K2 - K1))
  /\ f_div (Finite (-1)) (Finite (K2 - K1)) = Finite ((-1) / (K2 - K1)).
Proof.
  intro H. unfold f_div.
  destruct (Qeq_bool (K2 - K1) 0) eqn:E; qbool; [lra|].
  split; reflexivity.
Qed.

Lemma positive_part_above (a : Q) :
  0 <= a -> (if Qle_bool a 0 then 0 else a) == a.
Proof. intro H. destruct (Qle_bool a 0) eqn:E; qbool; lra. Qed.

Lemma positive_part_below (a : Q) :
  a <= 0 -> (if Qle_bool a 0 then 0 else a) == 0.
Proof. intro H. destruct (Qle_bool a 0) eqn:E; qbool; lra. Qed.

(** The call spread pays 1 at and above K2 and 0 at and below K1. *)
Lemma call_spread_outside (K1 K2 S : Q) :
  K1 < K2 ->
  (K2 <= S ->
   f_eq (replicated_at "call" (f_div (Finite 1) (Finite (K2 - K1)))
                       (f_div (Finite (-1)) (Finite (K2 - K1)))
                       (Finite K1) (Finite K2) S)
        (Finite 1))
  /\ (S <= K1 ->
      f_eq (replicated_at "call" (f_div (Finite 1) (Finite (K2 - K1)))
                          (f_div (Finite (-1)) (Finite (K2 - K1)))
                          (Finite K1) (Finite K2) S)
           (Finite 0)).
Proof.
  intro H. destruct (spread_weights K1 K2 H) as [-> ->].
  unfold replicated_at, vanilla_payoff.
  change ("call" =? "call") with true. cbv iota.
  rewrite !call_payoff_finite. cbn [f_mul f_add f_eq].
  split; intro HS.
  - rewrite !positive_part_above by lra. field. lra.
  - rewrite !positive_part_below by lra. field. lra.
Qed.

(** The put spread, with the weights the calculator returns, pays -1 at
    and below K1 and 0 at and above K2. *)
Lemma put_spread_outside (K1 K2 S : Q) :
  K1 < K2 ->
  (S <= K1 ->
   f_eq (replicated_at "put" (f_div (Finite 1) (Finite (K2 - K1)))
                       (f_div (Finite (-1)) (Finite (K2 - K1)))
                       (Finite K1) (Finite K2) S)
        (Finite (-1)))
  /\ (K2 <= S ->
      f_eq (replicated_at "put" (f_div (Finite 1) (Finite (K2 - K1)))
                          (f_div (Finite (-1)) (Finite (K2 - K1)))
                          (Finite K1) (Finite K2) S)
           (Finite 0)).
Proof.
  intro H. destruct (spread_weights K1 K2 H) as [-> ->].
  unfold replicated_at, vanilla_payoff.
  change ("put" =? "call") with false. cbv iota.
  rewrite !put_payoff_finite. cbn [f_mul f_add f_eq].
  split; intro HS.
  - rewrite !positive_part_above by lra. field. lra.
  - rewrite !positive_part_below by lra. field. lra.
Qed.

(** C1 (the code departs from it). The put replicated on the example table
    at target 10000 selects K1 = 9500 < K2 = 10000; its replicated payoff
    at the price 9000 <= K1 is -1, where the ideal binary put pays 1, and 0
    at the price 10250 >= K2. *)
Theorem put_replicated_payoff_below_K1 :
  selected_strikes example_table "put" 10000 example_expiry 500
  = Ok (9500, 10000)
  /\ 9500 < 10000 /\ 9000 <= 9500 /\ 10000 <= 10250
  /\ exists x y,
       (d <- replicate_binary_option example_table "put" 10000
               example_expiry 500 ;;
        plot_binary_replication_payoff 10000 "put" d (Some [9000; 10250]))
       = Ok (mkCurve [9000; 10250] [Finite 1; Finite 0] [Finite x; Finite y])
       /\ x == -1 /\ y == 0.
Proof.
  split; [vm_compute; reflexivity|].
  split; [reflexivity|].
  split; [vm_compute; discriminate|].
  split; [vm_compute; discriminate|].
  do 2 eexists. split; [vm_compute; reflexivity|].
  split; vm_compute; reflexivity.
Qed.

(** C4 (the code departs from it). With the positive precision 500 the
    call at target 8000 on the example table selects K1 = K2 = 9000, and
    the put at target 12000 selects K1 = K2 = 11000; the division by the
    zero width goes through and yields infinite weights and a [nan] total
    cost. *)
Theorem zero_width_spread_selected :
  0 < 500
  /\ selected_strikes example_table "call" 8000 example_expiry 500
     = Ok (9000, 9000)
  /\ selected_strikes example_table "put" 12000 example_expiry 500
     = Ok (11000, 11000)
  /\ exists d,
       replicate_binary_option example_table "call" 8000 example_expiry 500
       = Ok d
       /\ weight_of d "option_1" = Ok PosInf
       /\ weight_of d "option_2" = Ok NegInf
       /\ total_cost_of d = Ok NaN.
Proof.
  split; [reflexivity|].
  split; [vm_compute; reflexivity|].
  split; [vm_compute; reflexivity|].
  eexists. split; [vm_compute; reflexivity|].
  repeat split.
Qed.

(** ** Strings of digits *)

Lemma append_assoc (a b c : string) : (a ++ b) ++ c = a ++ (b ++ c).
Proof. induction a as [|x a IH]; cbn; [reflexivity|]. rewrite IH. reflexivity. Qed.

Lemma append_nil_r (a : string) : a ++ "" = a.
Proof. induction a as [|x a IH]; cbn; [reflexivity|]. rewrite IH. reflexivity. Qed.

Lemma is_digit_not_open (c : ascii) :
  is_digit c = true -> Ascii.eqb c "(" = false.
Proof.
  intro H. destruct (Ascii.eqb_spec c "("); [subst; discriminate|reflexivity].
Qed.

Lemma is_digit_not_point (c : ascii) :
  is_digit c = true -> Ascii.eqb c "." = false.
Proof.
  intro H. destruct (Ascii.eqb_spec c "."); [subst; discriminate|reflexivity].
Qed.

Lemma all_digits_no_open (s : string) : all_digits s = true -> no_open s = true.
Proof.
  induction s as [|c s IH]; cbn; [reflexivity|].
  intro H. apply andb_prop in H. destruct H as [Hc Hs].
  rewrite (is_digit_not_open c Hc), IH by assumption. reflexivity.
Qed.

Lemma no_open_app (a b : string) :
  no_open a = true -> no_open b = true -> no_open (a ++ b) = true.
Proof.
  induction a as [|c a IH]; cbn; [auto|].
  intros H Hb. apply andb_prop in H. destruct H as [Hc Ha].
  rewrite Hc, IH by assumption. reflexivity.
Qed.

Lemma plain_number_no_open (s : string) : plain_number s -> no_open s = true.
Proof.
  intros (i & fd & -> & Hi & _ & Hf).
  apply no_open_app; [apply all_digits_no_open, Hi|].
  cbn. apply all_digits_no_open, Hf.
Qed.

(** ** The scan over the note *)

Lemma scan_idle_skip (s rest : string) :
  no_open s = true -> scan Idle (s ++ rest) = scan Idle rest.
Proof.
  induction s as [|c s IH]; cbn [append no_open scan]; [reflexivity|].
  intro H. apply andb_prop in H. destruct H as [Hc Hs].
  apply negb_true_iff in Hc. rewrite Hc. auto.
Qed.

Lemma scan_int_digits (i : string) : forall acc rest,
  all_digits i = true ->
  scan (IntPart acc) (i ++ rest) = scan (IntPart (acc ++ i)) rest.
Proof.
  induction i as [|c i IH]; intros acc rest H; cbn [append all_digits scan] in *.
  - rewrite append_nil_r. reflexivity.
  - apply andb_prop in H. destruct H as [Hc Hi].
    rewrite (is_digit_not_open c Hc), Hc, IH by assumption.
    unfold snoc. rewrite append_assoc. reflexivity.
Qed.

Lemma scan_frac_digits (fd : string) : forall acc rest,
  all_digits fd = true ->
  scan (FracPart acc) (fd ++ rest) = scan (FracPart (acc ++ fd)) rest.
Proof.
  induction fd as [|c fd IH]; intros acc rest H;
    cbn [append all_digits scan] in *.
  - rewrite append_nil_r. reflexivity.
  - apply andb_prop in H. destruct H as [Hc Hf].
    rewrite (is_digit_not_open c Hc), Hc, IH by assumption.
    unfold snoc. rewrite append_assoc. reflexivity.
Qed.

Lemma length_pos (i : string) : i <> "" -> (0 <? String.length i)%nat = true.
Proof. destruct i; [congruence|reflexivity]. Qed.

(** After an opening parenthesis, a plain number runs into its fractional
    digits. *)
Lemma scan_number (s rest : string) :
  plain_number s -> scan (IntPart "") (s ++ rest) = scan (FracPart s) rest.
Proof.
  intros (i & fd & -> & Hi & Hne & Hf).
  rewrite append_assoc, scan_int_digits by assumption.
  cbn [append scan]. change (Ascii.eqb "." "(") with false.
  change (is_digit ".") with false. change (Ascii.eqb "." ".") with true.
  cbv iota. rewrite (length_pos i Hne).
  rewrite scan_frac_digits by assumption.
  unfold snoc. rewrite append_assoc. reflexivity.
Qed.

Lemma scan_number_closed (s rest : string) :
  plain_number s ->
  scan (IntPart "") (s ++ String ")" rest) = s :: scan Idle rest.
Proof. intro H. rewrite scan_number by assumption. reflexivity. Qed.

Lemma scan_number_space (s rest : string) :
  plain_number s ->
  scan (IntPart "") (s ++ String " " rest) = scan Idle rest.
Proof. intro H. rewrite scan_number by assumption. reflexivity. Qed.

(** The search over a note with two plain numbers finds exactly them, in
    the order K1, K2. *)
Lemma findall_note_template (kind fn s1 s2 : string) :
  kind = "call" \/ kind = "put" ->
  fn = "C" \/ fn = "P" ->
  plain_number s1 -> plain_number s2 ->
  findall_paren_number (note_template kind fn s1 s2) = [s1; s2].
Proof.
  intros Hk Hf H1 H2.
  assert (Htail : scan Idle (s1 ++ ")") = []).
  { rewrite scan_idle_skip by (apply plain_number_no_open, H1).
    reflexivity. }
  unfold findall_paren_number, note_template.
  destruct Hk as [-> | ->]; destruct Hf as [-> | ->];
    cbn [append];
    repeat (cbn [scan Ascii.eqb Bool.eqb is_digit N_of_ascii N_of_digits
                 N.leb N.compare Pos.compare Pos.compare_cont andb
                 String.length Nat.ltb Nat.leb N.add N.mul Pos.add Pos.mul
                 Pos.succ];
            cbv iota;
            first [ rewrite scan_number_closed by assumption
                  | rewrite scan_number_space by assumption ]);
    cbn [scan Ascii.eqb Bool.eqb]; cbv iota;
    rewrite Htail; reflexivity.
Qed.

(** ** Printed numbers read back *)

Lemma digit_char_spec (d : Z) :
  (0 <= d <= 9)%Z ->
  is_digit (digit_char d) = true /\ digit_value (digit_char d) = d.
Proof.
  intro H.
  assert (Hd : d = 0%Z \/ d = 1%Z \/ d = 2%Z \/ d = 3%Z \/ d = 4%Z \/ d = 5%Z
               \/ d = 6%Z \/ d = 7%Z \/ d = 8%Z \/ d = 9%Z) by lia.
  repeat (destruct Hd as [-> | Hd]; [split; reflexivity|]).
  subst d. split; reflexivity.
Qed.

Lemma inject_Z_lt (a b : Z) : inject_Z a < inject_Z b -> (a < b)%Z.
Proof. intro H. rewrite Zlt_Qlt. assumption. Qed.

(** One step of the expansion: the digit is in 0..9 and the remainder is
    again in [0, 1). *)
Lemma floor_digit (f : Q) :
  0 <= f -> f < 1 ->
  (0 <= Qfloor (f * 10) <= 9)%Z
  /\ 0 <= f * 10 - inject_Z (Qfloor (f * 10))
  /\ f * 10 - inject_Z (Qfloor (f * 10)) < 1.
Proof.
  intros H0 H1.
  pose proof (Qfloor_le (f * 10)) as Hle.
  pose proof (Qlt_floor (f * 10)) as Hlt.
  rewrite inject_Z_plus in Hlt. change (inject_Z 1) with 1 in Hlt.
  split; [|split; lra].
  split.
  - assert (H : (-1 < Qfloor (f * 10))%Z); [|lia].
    apply inject_Z_lt. change (inject_Z (-1)) with (-1). lra.
  - assert (H : (Qfloor (f * 10) < 10)%Z); [|lia].
    apply inject_Z_lt. change (inject_Z 10) with 10. lra.
Qed.

Lemma frac_digits_all_digits (fuel : nat) : forall f,
  0 <= f -> f < 1 -> all_digits (frac_digits fuel f) = true.
Proof.
  induction fuel as [|k IH]; intros f H0 H1; cbn [frac_digits all_digits];
    [reflexivity|].
  destruct (floor_digit f H0 H1) as (Hd & Hr0 & Hr1).
  rewrite (proj1 (digit_char_spec _ Hd)). cbn [andb].
  destruct (Qeq_bool (f * 10 - inject_Z (Qfloor (f * 10))) 0);
    [reflexivity|auto].
Qed.

Lemma string_of_uint_digits (d : Decimal.uint) :
  all_digits (NilEmpty.string_of_uint d) = true.
Proof. induction d; cbn; auto. Qed.

Lemma nat_str_digits (n : Z) : all_digits (nat_str n) = true.
Proof. apply string_of_uint_digits. Qed.

Lemma nat_str_nonempty (n : Z) : nat_str n <> "".
Proof.
  unfold nat_str. destruct (Z.to_N n) as [|p]; cbn; [discriminate|].
  pose proof (DecimalPos.Unsigned.to_uint_nonnil p) as H.
  destruct (Pos.to_uint p); [congruence|discriminate..].
Qed.

Lemma int_value_nat_str (n : Z) : (0 <= n)%Z -> int_value (nat_str n) = n.
Proof.
  intro H. unfold int_value, nat_str.
  rewrite NilEmpty.usu, DecimalN.Unsigned.of_to. apply Z2N.id. assumption.
Qed.

Lemma split_point_digits (i fd : string) :
  all_digits i = true -> split_point (i ++ String "." fd) = (i, fd).
Proof.
  induction i as [|c i IH]; cbn [append all_digits split_point]; intro H.
  - reflexivity.
  - apply andb_prop in H. destruct H as [Hc Hi].
    rewrite (is_digit_not_point c Hc), IH by assumption. reflexivity.
Qed.

Lemma pow10_succ (k : nat) :
  inject_Z (10 ^ Z.of_nat (S k)) == 10 * inject_Z (10 ^ Z.of_nat k).
Proof.
  rewrite Nat2Z.inj_succ, Z.pow_succ_r by lia.
  rewrite inject_Z_mult. reflexivity.
Qed.

(** The fractional digits read back as the fraction when its expansion
    ends within the fuel. *)
Lemma frac_digits_roundtrip (fuel : nat) : forall f,
  0 <= f -> f < 1 ->
  (exists m : Z, f * inject_Z (10 ^ Z.of_nat fuel) == inject_Z m) ->
  frac_value (frac_digits fuel f) == f.
Proof.
  induction fuel as [|k IH]; intros f H0 H1 (m & Hm);
    cbn [frac_digits frac_value].
  - change (inject_Z (10 ^ Z.of_nat 0)) with 1 in Hm.
    assert (Hz : m = 0%Z).
    { assert (Hlo : (-1 < m)%Z)
        by (apply inject_Z_lt; change (inject_Z (-1)) with (-1); lra).
      assert (Hhi : (m < 1)%Z)
        by (apply inject_Z_lt; change (inject_Z 1) with 1; lra).
      lia. }
    subst m. change (inject_Z 0) with 0 in Hm. lra.
  - destruct (floor_digit f H0 H1) as (Hd & Hr0 & Hr1).
    rewrite (proj2 (digit_char_spec _ Hd)).
    destruct (Qeq_bool (f * 10 - inject_Z (Qfloor (f * 10))) 0) eqn:E; qbool.
    + cbn [frac_value].
      set (d := inject_Z (Qfloor (f * 10))) in *. clearbody d.
      apply Qmult_inj_r with (z := 10); [lra|].
      field_simplify. lra.
    + rewrite IH; [|assumption|assumption|].
      { set (d := inject_Z (Qfloor (f * 10))) in *. clearbody d. field. }
      exists (m - Qfloor (f * 10) * 10 ^ Z.of_nat k)%Z.
      rewrite pow10_succ in Hm.
      unfold Zminus. rewrite inject_Z_plus, inject_Z_opp, inject_Z_mult.
      rewrite <- Hm. ring.
Qed.

Lemma fraction_range (a : Q) :
  0 <= a - inject_Z (Qfloor a) /\ a - inject_Z (Qfloor a) < 1.
Proof.
  pose proof (Qfloor_le a) as Hle.
  pose proof (Qlt_floor a) as Hlt.
  rewrite inject_Z_plus in Hlt. change (inject_Z 1) with 1 in Hlt.
  split; lra.
Qed.

Lemma fixed_str_plain (a : Q) : plain_number (fixed_str a).
Proof.
  exists (nat_str (Qfloor a)),
         (frac_digits (fraction_budget a) (a - inject_Z (Qfloor a))).
  split; [reflexivity|].
  split; [apply nat_str_digits|].
  split; [apply nat_str_nonempty|].
  destruct (fraction_range a). apply frac_digits_all_digits; assumption.
Qed.

Lemma fixed_str_roundtrip (a : Q) :
  0 <= a -> prints_exactly a -> float_of_literal (fixed_str a) == a.
Proof.
  intros H0 (m & Hm). unfold float_of_literal, fixed_str.
  cbn [append]. rewrite split_point_digits by apply nat_str_digits.
  assert (Hfl : (0 <= Qfloor a)%Z).
  { change 0%Z with (Qfloor 0). apply Qfloor_resp_le. assumption. }
  rewrite int_value_nat_str by assumption.
  destruct (fraction_range a) as [Hf0 Hf1].
  rewrite frac_digits_roundtrip; [ring|assumption|assumption|].
  exists (m - Qfloor a * 10 ^ Z.of_nat (fraction_budget a))%Z.
  unfold Zminus. rewrite inject_Z_plus, inject_Z_opp, inject_Z_mult.
  rewrite <- Hm. ring.
Qed.

Lemma float_str_plain_strike (q : Q) :
  plain_strike q -> float_str q = fixed_str q.
Proof.
  intros (H0 & Hr & _). unfold float_str, magnitude_str.
  destruct (Qlt_bool q 0) eqn:E; qbool; [lra|].
  destruct Hr as [Hz|[Hlo Hhi]].
  - apply Qeq_bool_iff in Hz. rewrite Hz. reflexivity.
  - apply Qle_bool_iff in Hlo. apply Qlt_bool_iff in Hhi.
    rewrite Hlo, Hhi, orb_true_r. reflexivity.
Qed.

(** ** Reading the strikes back from the note *)

Lemma selected_strikes_class (tbl : DataFrame) (ot : string) (t p : Q)
    (e : Z) (K : Q * Q) :
  selected_strikes tbl ot t e p = Ok K -> ot = "call" \/ ot = "put".
Proof.
  unfold selected_strikes.
  destruct (String.eqb_spec ot "call"); [auto|].
  destruct (String.eqb_spec ot "put"); [auto|discriminate].
Qed.

Lemma get_note_result_dict (kind fn : string) (K1 K2 : Q) (o1 o2 : row) :
  get_note (result_dict kind fn K1 K2 o1 o2) = Ok (note_of kind fn K1 K2).
Proof. reflexivity. Qed.

Lemma weight_of_result_dict (kind fn : string) (K1 K2 : Q) (o1 o2 : row) :
  weight_of (result_dict kind fn K1 K2 o1 o2) "option_1"
  = Ok (f_div (Finite 1) (Finite (K2 - K1)))
  /\ weight_of (result_dict kind fn K1 K2 o1 o2) "option_2"
     = Ok (f_div (Finite (-1)) (Finite (K2 - K1))).
Proof. split; reflexivity. Qed.

(** C7 (amended). For every successful replication whose two selected
    strikes print as plain unsigned decimal literals (not negative, zero or
    within [1e-4, 1e16), at most 17 significant digits), the K1 and K2 the
    evaluator extracts from the note equal the K1 and K2 the selector
    chose. *)
Theorem note_roundtrip_plain_strikes (tbl : DataFrame) (ot : string)
    (t p : Q) (e : Z) (d : dict) (K1 K2 strike : Q) :
  replicate_binary_option tbl ot t e p = Ok d ->
  selected_strikes tbl ot t e p = Ok (K1, K2) ->
  plain_strike K1 -> plain_strike K2 ->
  exists k1 k2,
    recover_strikes strike d = Ok (Finite k1, Finite k2)
    /\ k1 == K1 /\ k2 == K2.
Proof.
  intros Hd Hsel HK1 HK2.
  pose proof (selected_strikes_class _ _ _ _ _ _ Hsel) as Hot.
  apply replicate_ok_iff in Hd.
  destruct Hd as (K1' & K2' & o1 & o2 & Hsel' & _ & _ & ->).
  rewrite Hsel in Hsel'. injection Hsel' as <- <-.
  exists (float_of_literal (float_str K1)), (float_of_literal (float_str K2)).
  split.
  - unfold recover_strikes. rewrite get_note_result_dict. cbn [bind].
    unfold note_of. rewrite findall_note_template; [reflexivity|assumption| | |].
    + unfold kind_letter. destruct Hot as [-> | ->]; [left|right]; reflexivity.
    + rewrite float_str_plain_strike by assumption. apply fixed_str_plain.
    + rewrite float_str_plain_strike by assumption. apply fixed_str_plain.
  - rewrite !float_str_plain_strike by assumption.
    destruct HK1 as (H1 & _ & E1). destruct HK2 as (H2 & _ & E2).
    split; apply fixed_str_roundtrip; assumption.
Qed.

Lemma plain_strike_10000 : plain_strike 10000.
Proof.
  split; [vm_compute; discriminate|].
  split; [right; split; [vm_compute; discriminate|reflexivity]|].
  exists (10000 * 10 ^ 12)%Z. vm_compute. reflexivity.
Defined.

Lemma plain_strike_10500 : plain_strike 10500.
Proof.
  split; [vm_compute; discriminate|].
  split; [right; split; [vm_compute; discriminate|reflexivity]|].
  exists (10500 * 10 ^ 12)%Z. vm_compute. reflexivity.
Defined.

Lemma note_roundtrip_plain_strikes_witness :
  exists k1 k2,
    recover_strikes 10000 example_call_replication
    = Ok (Finite k1, Finite k2)
    /\ k1 == 10000 /\ k2 == 10500.
Proof.
  apply (note_roundtrip_plain_strikes example_table "call" 10000 500
           example_expiry example_call_replication 10000 10500 10000).
  - vm_compute. reflexivity.
  - vm_compute. reflexivity.
  - exact plain_strike_10000.
  - exact plain_strike_10500.
Defined.

(** C7 as stated fails when a selected strike does not print as a plain
    unsigned literal.  At the strikes -4 and 4 (target -6, precision 4) the
    note holds [(C(-4.0)] and the search finds one number only; at the
    strikes 0.00005 and 0.0001 (target 0.00004, precision 0.00005) the
    note holds [(C(5e-05)].  Both times the evaluator falls back to
    K1 = strike and K2 = strike + 1 / weight_1, which are not the selected
    strikes. *)
Lemma note_roundtrip_counterexample :
  (exists d k1 k2,
      replicate_binary_option signed_strike_table "call" (-6) example_expiry 4
      = Ok d
      /\ selected_strikes signed_strike_table "call" (-6) example_expiry 4
         = Ok (-4, 4)
      /\ get_note d
         = Ok "Binary call approx by (C(-4.0) - C(4.0)) / (4.0 - -4.0)"
      /\ recover_strikes (-6) d = Ok (Finite k1, Finite k2)
      /\ ~ k1 == -4 /\ ~ k2 == 4)
  /\ (exists d k1 k2,
         replicate_binary_option small_strike_table "call" (4 # 100000)
                                 example_expiry (5 # 100000)
         = Ok d
         /\ selected_strikes small_strike_table "call" (4 # 100000)
                             example_expiry (5 # 100000)
            = Ok (5 # 100000, 1 # 10000)
         /\ get_note d
            = Ok "Binary call approx by (C(5e-05) - C(0.0001)) / (0.0001 - 5e-05)"
         /\ recover_strikes (4 # 100000) d = Ok (Finite k1, Finite k2)
         /\ ~ k1 == 5 # 100000 /\ ~ k2 == 1 # 10000).
Proof.
  split.
  - do 3 eexists. split; [vm_compute; reflexivity|].
    split; [vm_compute; reflexivity|].
    split; [vm_compute; reflexivity|].
    split; [vm_compute; reflexivity|].
    split; intro H; vm_compute in H; discriminate.
  - do 3 eexists. split; [vm_compute; reflexivity|].
    split; [vm_compute; reflexivity|].
    split; [vm_compute; reflexivity|].
    split; [vm_compute; reflexivity|].
    split; intro H; vm_compute in H; discriminate.
Qed.

(** ** Errors of the evaluator *)






(** C10. A replication result whose note yields fewer than two
    parenthesized numbers and which lacks the first leg or its weight makes
    the evaluator raise (a [KeyError] on the missing key) instead of
    returning a curve. *)
Theorem unreadable_result_raises (strike : Q) (ot : string) (d : dict)
    (pr : option (list Q)) (note : string) :
  get_note d = Ok note ->
  (List.length (findall_paren_number note) < 2)%nat ->
  dict_lookup d "option_1" = None
  \/ (exists o, dict_lookup d "option_1" = Some (VDict o)
                /\ dict_lookup o "weight" = None) ->
  exists key,
    plot_binary_replication_payoff strike ot d pr = Raise (KeyError key)
    /\ (key = "option_1" \/ key = "weight").
Proof.
  intros Hn Hlen Hmiss.
  assert (Hrec : exists key, recover_strikes strike d = Raise (KeyError key)
                             /\ (key = "option_1" \/ key = "weight")).
  { unfold recover_strikes. rewrite Hn. cbn [bind].
    destruct (findall_paren_number note) as [|m1 [|m2 l]];
      [| |cbn in Hlen; lia];
      (destruct Hmiss as [H|(o & H & Hw)];
       [exists "option_1"; unfold dict_getitem; rewrite H; auto
       |exists "weight"; unfold dict_getitem; rewrite H; cbn [bind getitem];
        unfold dict_getitem; rewrite Hw; auto]). }
  destruct Hrec as (key & Hrec & Hkey).
  exists key. split; [|assumption].
  unfold plot_binary_replication_payoff. rewrite Hrec. reflexivity.
Qed.

Lemma unreadable_result_raises_witness :
  (exists key,
      plot_binary_replication_payoff 10000 "call"
        [("note", VStr "Binary call approx by (C(n/a))")] None
      = Raise (KeyError key)
      /\ (key = "option_1" \/ key = "weight"))
  /\ (exists key,
         plot_binary_replication_payoff 10000 "put"
           [("option_1", VDict [("instrument", VStr "BTC-27DEC24-9500")]);
            ("note", VStr "(P(9500.0) - P(x))")]
           (Some [9000])
         = Raise (KeyError key)
         /\ (key = "option_1" \/ key = "weight")).
Proof.
  split.
  - apply (unreadable_result_raises 10000 "call"
             [("note", VStr "Binary call approx by (C(n/a))")] None
             "Binary call approx by (C(n/a))").
    + reflexivity.
    + vm_compute. lia.
    + left. reflexivity.
  - apply (unreadable_result_raises 10000 "put"
             [("option_1", VDict [("instrument", VStr "BTC-27DEC24-9500")]);
              ("note", VStr "(P(9500.0) - P(x))")]
             (Some [9000]) "(P(9500.0) - P(x))").
    + reflexivity.
    + vm_compute. lia.
    + right. eexists. split; reflexivity.
Defined.

(* ================================================================= *)
(** * Further properties of the calculator and the evaluator *)

(** ** When the selection succeeds *)

Lemma searchsorted_left_in_bounds (a : list Q) (v : Q) :
  (searchsorted_left a v < len a)%Z <-> exists y, In y a /\ v <= y.
Proof.
  unfold len. induction a as [|x t IH];
    cbn [List.length searchsorted_left]; rewrite ?Nat2Z.inj_succ.
  - split; [lia|intros (y & [] & _)].
  - pose proof (searchsorted_left_range t v) as Hr. unfold len in Hr.
    destruct (Qlt_bool x v) eqn:E; qbool.
    + split.
      * intro H. destruct (proj1 IH) as (y & Hy & Hv); [lia|].
        exists y. split; [right|]; assumption.
      * intros (y & [<-|Hy] & Hv); [lra|].
        assert ((searchsorted_left t v < Z.of_nat (List.length t))%Z)
          by (apply IH; eauto).
        lia.
    + split; [|lia]. intros _. exists x. split; [left; reflexivity|assumption].
Qed.

Lemma searchsorted_right_in_bounds (a : list Q) (v : Q) :
  StronglySorted Qle a ->
  ((0 <= searchsorted_right a v - 1)%Z <-> exists y, In y a /\ y <= v).
Proof.
  intro Hs. destruct Hs as [|x t Hs Hall]; cbn [searchsorted_right].
  - split; [lia|intros (y & [] & _)].
  - pose proof (searchsorted_right_range t v) as Hr.
    rewrite Forall_forall in Hall.
    destruct (Qle_bool x v) eqn:E; qbool.
    + split; [|lia]. intros _. exists x. split; [left; reflexivity|assumption].
    + split; [lia|]. intros (y & [<-|Hy] & Hv); [lra|].
      specialize (Hall y Hy). lra.
Qed.

Lemma available_iff_strikes (tbl : DataFrame) (cls : string) (e : Z)
    (P : Q -> Prop) :
  (forall a b, a == b -> P a -> P b) ->
  (exists K, available tbl cls e K /\ P K)
  <-> exists y, In y (strikes_of (df_of_class tbl cls e)) /\ P y.
Proof.
  intro HP. split.
  - intros (K & (r & Hr & He & Hc & HK) & HPK).
    destruct (strikes_of_available tbl cls e r Hr He Hc) as (y & Hy & Heq).
    exists y. split; [assumption|].
    apply (HP K); [rewrite Heq, HK; reflexivity|assumption].
  - intros (y & Hy & HPy). exists y. split; [|assumption].
    apply available_strikes_of. assumption.
Qed.

Lemma select_call_ok_iff (strikes : list Q) (t p : Q) :
  StronglySorted Qle strikes ->
  ((exists K, select_call strikes t p = Ok K)
   <-> (searchsorted_left strikes t < len strikes)%Z
       /\ (searchsorted_left strikes (t + p) < len strikes)%Z).
Proof.
  intro Hs. split.
  - intros (K & HK). eapply select_call_ok_bounds. eassumption.
  - intros [H1 H2].
    destruct (select_call_spec strikes t p Hs H1 H2) as (K1 & K2 & H & _).
    eauto.
Qed.

Lemma select_put_ok_iff (strikes : list Q) (t p : Q) :
  StronglySorted Qle strikes ->
  ((exists K, select_put strikes t p = Ok K)
   <-> (0 <= searchsorted_right strikes (t - p) - 1)%Z
       /\ (0 <= searchsorted_right strikes t - 1)%Z).
Proof.
  intro Hs. split.
  - intros (K & HK). eapply select_put_ok_bounds. eassumption.
  - intros [H1 H2].
    destruct (select_put_spec strikes t p Hs H1 H2) as (K1 & K2 & H & _).
    eauto.
Qed.

Lemma replicate_ok_selected (tbl : DataFrame) (ot : string) (t p : Q) (e : Z) :
  (exists d, replicate_binary_option tbl ot t e p = Ok d)
  <-> exists K, selected_strikes tbl ot t e p = Ok K.
Proof.
  split.
  - intros (d & Hd). apply replicate_ok_iff in Hd.
    destruct Hd as (K1 & K2 & _ & _ & H & _). eauto.
  - intros ([K1 K2] & H). eapply selected_replicates. eassumption.
Qed.

(** X1. A call replication returns a result exactly when the subset has a
    strike at or above the target and a strike at or above
    target + precision. *)
Theorem call_replication_succeeds_iff (tbl : DataFrame) (t p : Q) (e : Z) :
  (exists d, replicate_binary_option tbl "call" t e p = Ok d)
  <-> (exists K, available tbl "call" e K /\ t <= K)
      /\ (exists K, available tbl "call" e K /\ t + p <= K).
Proof.
  rewrite replicate_ok_selected. unfold selected_strikes.
  change ("call" =? "call") with true. cbv iota.
  rewrite select_call_ok_iff by apply strikes_of_sorted.
  rewrite !searchsorted_left_in_bounds.
  rewrite <- !(available_iff_strikes tbl "call" e);
    [reflexivity|intros a b Hab H; rewrite <- Hab; assumption..].
Qed.

(** X2. A put replication returns a result exactly when the subset has a
    strike at or below the target and a strike at or below
    target - precision. *)
Theorem put_replication_succeeds_iff (tbl : DataFrame) (t p : Q) (e : Z) :
  (exists d, replicate_binary_option tbl "put" t e p = Ok d)
  <-> (exists K, available tbl "put" e K /\ K <= t)
      /\ (exists K, available tbl "put" e K /\ K <= t - p).
Proof.
  rewrite replicate_ok_selected. unfold selected_strikes.
  change ("put" =? "call") with false. change ("put" =? "put") with true.
  cbv iota.
  rewrite select_put_ok_iff by apply strikes_of_sorted.
  rewrite !searchsorted_right_in_bounds by apply strikes_of_sorted.
  rewrite <- !(available_iff_strikes tbl "put" e);
    [tauto|intros a b Hab H; rewrite <- Hab; assumption..].
Qed.

Lemma call_replication_succeeds_iff_witness :
  exists d,
    replicate_binary_option example_table "call" 10000 example_expiry 500
    = Ok d.
Proof.
  apply (call_replication_succeeds_iff example_table 10000 500 example_expiry).
  split.
  - exists 10000. split; [|vm_compute; discriminate].
    exists (example_row "call" 10000 700). repeat split. left. reflexivity.
  - exists 11000. split; [|vm_compute; discriminate].
    exists (example_row "call" 11000 250). repeat split. cbn. tauto.
Defined.

Lemma put_replication_succeeds_iff_witness :
  exists d,
    replicate_binary_option example_table "put" 10000 example_expiry 500
    = Ok d.
Proof.
  apply (put_replication_succeeds_iff example_table 10000 500 example_expiry).
  split.
  - exists 10000. split; [|vm_compute; discriminate].
    exists (example_row "put" 10000 650). repeat split. cbn. tauto.
  - exists 9000. split; [|vm_compute; discriminate].
    exists (example_row "put" 9000 200). repeat split. cbn. tauto.
Defined.

(** ** The rows behind the two legs *)

Lemma filter_head_split {A : Type} (f : A -> bool) (l : list A) (r : A)
    (rest : list A) :
  filter f l = r :: rest ->
  exists pre post,
    l = (pre ++ r :: post)%list /\ f r = true
    /\ forall x, In x pre -> f x = false.
Proof.
  induction l as [|a l IH]; cbn [filter]; [discriminate|].
  destruct (f a) eqn:E.
  - intro H. injection H as -> _.
    exists [], l. split; [reflexivity|]. split; [assumption|intros x []].
  - intro H. destruct (IH H) as (pre & post & -> & Hr & Hpre).
    exists (a :: pre), post. split; [reflexivity|]. split; [assumption|].
    intros x [<-|Hx]; auto.
Qed.

Lemma leg_filter_spec (cls : string) (e : Z) (K : Q) (r : row) :
  leg_filter cls e K r = true <-> matches_leg cls e K r.
Proof.
  unfold leg_filter, matches_leg.
  rewrite !andb_true_iff, Z.eqb_eq, String.eqb_eq, Qeq_bool_iff. tauto.
Qed.

Lemma filter_filter {A : Type} (f g : A -> bool) (l : list A) :
  filter f (filter g l) = filter (fun x => g x && f x) l.
Proof.
  induction l as [|a l IH]; cbn [filter]; [reflexivity|].
  destruct (g a); cbn [filter andb]; [destruct (f a)|]; rewrite IH; reflexivity.
Qed.

Lemma first_with_strike_first_match (tbl : DataFrame) (cls : string) (e : Z)
    (K : Q) (r : row) :
  first_with_strike (df_of_class tbl cls e) K = Ok r ->
  first_match tbl cls e K r.
Proof.
  unfold first_with_strike, df_of_class. rewrite !filter_filter.
  destruct (filter _ tbl) as [|r0 rest] eqn:E; [discriminate|].
  cbn [iloc0]. intro H. injection H as ->.
  apply filter_head_split in E. destruct E as (pre & post & -> & Hr & Hpre).
  exists pre, post. split; [reflexivity|].
  split; [apply leg_filter_spec; exact Hr|].
  intros r' Hin Hm. apply leg_filter_spec in Hm.
  specialize (Hpre r' Hin). unfold leg_filter in Hm. congruence.
Qed.

(** X3. Each leg of a returned result is taken from the first row of the
    table, in table order, that has the requested class and expiration and
    the selected strike: its instrument name and its last price are that
    row's. *)
Theorem legs_are_first_matching_rows (tbl : DataFrame) (ot : string)
    (t p : Q) (e : Z) (d : dict) (K1 K2 : Q) :
  replicate_binary_option tbl ot t e p = Ok d ->
  selected_strikes tbl ot t e p = Ok (K1, K2) ->
  exists r1 r2,
    first_match tbl ot e K1 r1
    /\ first_match tbl ot e K2 r2
    /\ instrument_of d "option_1" = Ok (VStr (col_instrument_name r1))
    /\ instrument_of d "option_2" = Ok (VStr (col_instrument_name r2))
    /\ cost_of d "option_1" = Ok (Finite (col_last_price r1))
    /\ cost_of d "option_2" = Ok (Finite (col_last_price r2)).
Proof.
  intros Hd Hsel. apply replicate_ok_iff in Hd.
  destruct Hd as (K1' & K2' & o1 & o2 & Hsel' & Ho1 & Ho2 & ->).
  rewrite Hsel in Hsel'. injection Hsel' as <- <-.
  exists o1, o2.
  split; [apply first_with_strike_first_match; assumption|].
  split; [apply first_with_strike_first_match; assumption|].
  repeat split.
Qed.

Lemma legs_are_first_matching_rows_witness :
  exists r1 r2,
    first_match example_table "call" example_expiry 10000 r1
    /\ first_match example_table "call" example_expiry 10500 r2
    /\ instrument_of example_call_replication "option_1"
       = Ok (VStr (col_instrument_name r1))
    /\ instrument_of example_call_replication "option_2"
       = Ok (VStr (col_instrument_name r2))
    /\ cost_of example_call_replication "option_1"
       = Ok (Finite (col_last_price r1))
    /\ cost_of example_call_replication "option_2"
       = Ok (Finite (col_last_price r2)).
Proof.
  apply (legs_are_first_matching_rows example_table "call" 10000 500
           example_expiry).
  - vm_compute. reflexivity.
  - vm_compute. reflexivity.
Defined.

(** ** What a successful selection guarantees *)

Lemma selected_call_inv (tbl : DataFrame) (t p : Q) (e : Z) (K1 K2 : Q) :
  selected_strikes tbl "call" t e p = Ok (K1, K2) ->
  available tbl "call" e K1 /\ t <= K1
  /\ (forall K, available tbl "call" e K -> t <= K -> K1 <= K)
  /\ available tbl "call" e K2 /\ t + p <= K2
  /\ (forall K, available tbl "call" e K -> t + p <= K -> K2 <= K).
Proof.
  unfold selected_strikes. change ("call" =? "call") with true. cbv iota.
  intro H. destruct (select_call_ok_bounds _ _ _ _ H) as [H1 H2].
  destruct (select_call_spec _ t p (strikes_of_sorted _) H1 H2)
    as (K1' & K2' & Hsel & Hin1 & Hle1 & Hmin1 & Hin2 & Hle2 & Hmin2).
  rewrite H in Hsel. injection Hsel as <- <-.
  assert (Hlift : forall v K0,
             (forall y, In y (strikes_of (df_of_class tbl "call" e)) ->
                        v <= y -> K0 <= y) ->
             forall K, available tbl "call" e K -> v <= K -> K0 <= K).
  { intros v K0 Hmin K (r & Hr & He & Hc & HK) HvK.
    destruct (strikes_of_available tbl "call" e r Hr He Hc) as (K' & HK' & Heq).
    rewrite HK in Heq. rewrite <- Heq in *. auto. }
  split; [apply available_strikes_of; assumption|].
  split; [assumption|].
  split; [apply Hlift; assumption|].
  split; [apply available_strikes_of; assumption|].
  split; [assumption|apply Hlift; assumption].
Qed.

Lemma selected_put_inv (tbl : DataFrame) (t p : Q) (e : Z) (K1 K2 : Q) :
  selected_strikes tbl "put" t e p = Ok (K1, K2) ->
  available tbl "put" e K1 /\ K1 <= t - p
  /\ (forall K, available tbl "put" e K -> K <= t - p -> K <= K1)
  /\ available tbl "put" e K2 /\ K2 <= t
  /\ (forall K, available tbl "put" e K -> K <= t -> K <= K2).
Proof.
  unfold selected_strikes. change ("put" =? "call") with false.
  change ("put" =? "put") with true. cbv iota.
  intro H. destruct (select_put_ok_bounds _ _ _ _ H) as [H1 H2].
  destruct (select_put_spec _ t p (strikes_of_sorted _) H1 H2)
    as (K1' & K2' & Hsel & Hin1 & Hle1 & Hmax1 & Hin2 & Hle2 & Hmax2).
  rewrite H in Hsel. injection Hsel as <- <-.
  assert (Hlift : forall v K0,
             (forall y, In y (strikes_of (df_of_class tbl "put" e)) ->
                        y <= v -> y <= K0) ->
             forall K, available tbl "put" e K -> K <= v -> K <= K0).
  { intros v K0 Hmax K (r & Hr & He & Hc & HK) HvK.
    destruct (strikes_of_available tbl "put" e r Hr He Hc) as (K' & HK' & Heq).
    rewrite HK in Heq. rewrite <- Heq in *. auto. }
  split; [apply available_strikes_of; assumption|].
  split; [assumption|].
  split; [apply Hlift; assumption|].
  split; [apply available_strikes_of; assumption|].
  split; [assumption|apply Hlift; assumption].
Qed.

(** X4. When the target is itself a strike of the subset and moving it by
    the precision gives a different number (target + precision above the
    target for a call, target - precision below it for a put), the spread
    starts at the target and its two strikes differ: for a call K1 = target
    and K2 >= target + precision, for a put K2 = target and
    K1 <= target - precision, and K1 < K2 in both cases. *)
Theorem target_on_grid_spread (tbl : DataFrame) (ot : string) (t p : Q)
    (e : Z) (K1 K2 : Q) :
  selected_strikes tbl ot t e p = Ok (K1, K2) ->
  (exists K, available tbl ot e K /\ K == t) ->
  (if String.eqb ot "call" then t < t + p else t - p < t) ->
  (ot = "call" -> K1 == t /\ t + p <= K2)
  /\ (ot = "put" -> K2 == t /\ K1 <= t - p)
  /\ K1 < K2.
Proof.
  intros Hsel (K & HK & Heq) Hp.
  destruct (selected_strikes_class _ _ _ _ _ _ Hsel) as [-> | ->].
  - change ("call" =? "call") with true in Hp. cbv iota in Hp.
    destruct (selected_call_inv _ _ _ _ _ _ Hsel)
      as (_ & Hle1 & Hmin1 & _ & Hle2 & _).
    assert (HK1 : K1 <= K) by (apply Hmin1; [assumption|lra]).
    split; [intros _; split; lra|]. split; [discriminate|]. lra.
  - change ("put" =? "call") with false in Hp. cbv iota in Hp.
    destruct (selected_put_inv _ _ _ _ _ _ Hsel)
      as (_ & Hle1 & _ & _ & Hle2 & Hmax2).
    assert (HK2 : K <= K2) by (apply Hmax2; [assumption|lra]).
    split; [discriminate|]. split; [intros _; split; lra|]. lra.
Qed.

Lemma target_on_grid_spread_witness :
  (("call" = "call" -> 10000 == 10000 /\ 10000 + 500 <= 10500)
   /\ ("call" = "put" -> 10500 == 10000 /\ 10000 <= 10000 - 500)
   /\ 10000 < 10500)
  /\ (("put" = "call" -> 9500 == 10000 /\ 10000 + 500 <= 10000)
      /\ ("put" = "put" -> 10000 == 10000 /\ 9500 <= 10000 - 500)
      /\ 9500 < 10000).
Proof.
  split.
  - apply (target_on_grid_spread example_table "call" 10000 500
             example_expiry).
    + vm_compute. reflexivity.
    + exists 10000. split; [|reflexivity].
      exists (example_row "call" 10000 700).
      repeat split. left. reflexivity.
    + reflexivity.
  - apply (target_on_grid_spread example_table "put" 10000 500
             example_expiry).
    + vm_compute. reflexivity.
    + exists 10000. split; [|reflexivity].
      exists (example_row "put" 10000 650).
      repeat split. cbn. tauto.
    + reflexivity.
Defined.

(** X5. When the selection returns the same strike twice, the call does
    not fail: it returns the weights +inf and -inf and a [nan] total cost. *)
Theorem zero_width_gives_infinite_weights (tbl : DataFrame) (ot : string)
    (t p : Q) (e : Z) (d : dict) (K1 K2 : Q) :
  replicate_binary_option tbl ot t e p = Ok d ->
  selected_strikes tbl ot t e p = Ok (K1, K2) ->
  K1 == K2 ->
  weight_of d "option_1" = Ok PosInf
  /\ weight_of d "option_2" = Ok NegInf
  /\ total_cost_of d = Ok NaN.
Proof.
  intros Hd Hsel Heq. apply replicate_ok_iff in Hd.
  destruct Hd as (K1' & K2' & o1 & o2 & Hsel' & Ho1 & Ho2 & ->).
  rewrite Hsel in Hsel'. injection Hsel' as <- <-.
  assert (Ho : o1 = o2).
  { unfold first_with_strike in Ho1, Ho2.
    rewrite (filter_ext (fun r => Qeq_bool (col_strike r) K1)
                        (fun r => Qeq_bool (col_strike r) K2)) in Ho1.
    - congruence.
    - intro r. destruct (Qeq_bool (col_strike r) K2) eqn:E; qbool.
      + apply Qeq_bool_iff. rewrite Heq. assumption.
      + destruct (Qeq_bool (col_strike r) K1) eqn:E1; qbool; [|reflexivity].
        exfalso. apply E. rewrite <- Heq. assumption. }
  subst o2.
  assert (Hz : Qeq_bool (K2 - K1) 0 = true) by (apply Qeq_bool_iff; lra).
  unfold weight_of, total_cost_of, result_dict. cbn. rewrite Hz.
  split; [reflexivity|]. split; [reflexivity|].
  unfold inf_times. change (1 ?= 0) with Gt. change (-1 ?= 0) with Lt.
  cbv iota. cbn [f_mul]. unfold inf_times.
  destruct (col_last_price o1 ?= 0); reflexivity.
Qed.

Lemma zero_width_gives_infinite_weights_witness :
  exists d,
    replicate_binary_option example_table "call" 8000 example_expiry 500
    = Ok d
    /\ weight_of d "option_1" = Ok PosInf
    /\ weight_of d "option_2" = Ok NegInf
    /\ total_cost_of d = Ok NaN.
Proof.
  eexists. split; [vm_compute; reflexivity|].
  eapply (zero_width_gives_infinite_weights example_table "call" 8000 500
            example_expiry _ 9000 9000).
  - vm_compute. reflexivity.
  - vm_compute. reflexivity.
  - reflexivity.
Defined.

(** ** The replicated curve between and outside the strikes *)

Lemma recover_strikes_plain (strike : Q) (ot : string) (K1 K2 : Q)
    (o1 o2 : row) :
  ot = "call" \/ ot = "put" ->
  plain_strike K1 -> plain_strike K2 ->
  exists k1 k2,
    recover_strikes strike (result_dict ot (kind_letter ot) K1 K2 o1 o2)
    = Ok (Finite k1, Finite k2)
    /\ k1 == K1 /\ k2 == K2.
Proof.
  intros Hot HK1 HK2.
  exists (float_of_literal (float_str K1)), (float_of_literal (float_str K2)).
  split.
  - unfold recover_strikes. rewrite get_note_result_dict. cbn [bind].
    unfold note_of. rewrite findall_note_template; [reflexivity|assumption| | |].
    + unfold kind_letter. destruct Hot as [-> | ->]; [left|right]; reflexivity.
    + rewrite float_str_plain_strike by assumption. apply fixed_str_plain.
    + rewrite float_str_plain_strike by assumption. apply fixed_str_plain.
  - rewrite !float_str_plain_strike by assumption.
    destruct HK1 as (H1 & _ & E1). destruct HK2 as (H2 & _ & E2).
    split; apply fixed_str_roundtrip; assumption.
Qed.

Lemma Forall2_map_r {A B : Type} (P : A -> B -> Prop) (f : A -> B)
    (l : list A) :
  (forall a, P a (f a)) -> Forall2 P l (map f l).
Proof. intro H. induction l; cbn; constructor; auto. Qed.

Lemma inverse_width (K1 K2 : Q) :
  K1 < K2 -> 0 < 1 / (K2 - K1) /\ 1 / (K2 - K1) * (K2 - K1) == 1.
Proof.
  intro H. split; [|field; lra].
  unfold Qdiv. rewrite Qmult_1_l. apply Qinv_lt_0_compat. lra.
Qed.

Lemma call_spread_value (k1 k2 K1 K2 S : Q) :
  k1 == K1 -> k2 == K2 -> K1 < K2 ->
  exists v,
    replicated_at "call" (Finite (1 / (K2 - K1)))
                  (Finite ((-1) / (K2 - K1)))
                  (Finite k1) (Finite k2) S
    = Finite v
    /\ call_rise (1 / (K2 - K1)) K1 K2 S v.
Proof.
  intros E1 E2 H.
  unfold replicated_at, vanilla_payoff.
  change ("call" =? "call") with true. cbv iota.
  rewrite !call_payoff_finite. cbn [f_mul f_add].
  eexists. split; [reflexivity|].
  destruct (inverse_width K1 K2 H) as [Hw Hw1].
  assert (Hm : (-1) / (K2 - K1) == - (1 / (K2 - K1))) by (field; lra).
  unfold call_rise. rewrite Hm.
  set (w := 1 / (K2 - K1)) in *. clearbody w.
  destruct (Qlt_le_dec S K1) as [Ha|Ha]; destruct (Qlt_le_dec S K2) as [Hb|Hb];
    try lra.
  - rewrite !positive_part_below by lra.
    split; [intros; nra|]. split; [intros; lra|nra].
  - rewrite (positive_part_above (S - k1)), (positive_part_below (S - k2))
      by lra.
    rewrite ?E1, ?E2.
    assert (0 <= w * (S - K1)) by (apply Qmult_le_0_compat; lra).
    split; [intros; nra|]. split; [intros; nra|nra].
  - rewrite !positive_part_above by lra. rewrite ?E1, ?E2.
    assert (Hv : w * (S - K1) + - w * (S - K2) == 1)
      by (rewrite <- Hw1; ring).
    split; [intros; lra|]. split; [intros; nra|lra].
Qed.

Lemma put_spread_value (k1 k2 K1 K2 S : Q) :
  k1 == K1 -> k2 == K2 -> K1 < K2 ->
  exists v,
    replicated_at "put" (Finite (1 / (K2 - K1)))
                  (Finite ((-1) / (K2 - K1)))
                  (Finite k1) (Finite k2) S
    = Finite v
    /\ put_fall ((-1) / (K2 - K1)) K1 K2 S v.
Proof.
  intros E1 E2 H.
  unfold replicated_at, vanilla_payoff.
  change ("put" =? "call") with false. cbv iota.
  rewrite !put_payoff_finite. cbn [f_mul f_add].
  eexists. split; [reflexivity|].
  destruct (inverse_width K1 K2 H) as [Hw Hw1].
  assert (Hm : (-1) / (K2 - K1) == - (1 / (K2 - K1))) by (field; lra).
  unfold put_fall. rewrite Hm.
  set (w := 1 / (K2 - K1)) in *. clearbody w.
  destruct (Qlt_le_dec S K1) as [Ha|Ha]; destruct (Qlt_le_dec S K2) as [Hb|Hb];
    try lra.
  - rewrite !positive_part_above by lra. rewrite ?E1, ?E2.
    assert (Hv : w * (K1 - S) + - w * (K2 - S) == -1) by nra.
    split; [intros; lra|]. split; [intros; lra|lra].
  - rewrite (positive_part_below (k1 - S)), (positive_part_above (k2 - S))
      by lra.
    rewrite ?E1, ?E2.
    assert (0 <= w * (K2 - S)) by (apply Qmult_le_0_compat; lra).
    split; [intros; nra|]. split; [intros; nra|nra].
  - rewrite !positive_part_below by lra.
    split; [intros; nra|]. split; [intros; nra|nra].
Qed.

(** ** The curves of a result whose strikes are read back *)

Lemma f_eq_refl (x : float64) : f_eq x x.
Proof. destruct x; cbn; [reflexivity|exact I..]. Qed.

Lemma positive_part_comp (a b : Q) :
  a == b ->
  (if Qle_bool a 0 then 0 else a) == (if Qle_bool b 0 then 0 else b).
Proof.
  intro H. destruct (Qle_bool a 0) eqn:Ea; destruct (Qle_bool b 0) eqn:Eb;
    qbool; lra.
Qed.

Lemma f_mul_finite_comp (w : float64) (a b : Q) :
  a == b -> f_eq (f_mul w (Finite a)) (f_mul w (Finite b)).
Proof.
  intro H. destruct w as [q| | |]; cbn [f_mul f_eq].
  - rewrite H. reflexivity.
  - unfold inf_times. rewrite H. apply f_eq_refl.
  - unfold inf_times. rewrite H. apply f_eq_refl.
  - exact I.
Qed.

Lemma f_add_comp (x x' y y' : float64) :
  f_eq x x' -> f_eq y y' -> f_eq (f_add x y) (f_add x' y').
Proof.
  destruct x, x', y, y'; cbn [f_eq f_add]; intros Hx Hy;
    try contradiction; try exact I.
  rewrite Hx, Hy. reflexivity.
Qed.

(** Strikes equal as numbers give the same replicated value. *)
Lemma replicated_at_comp (cls : string) (w1 w2 : float64)
    (k1 K1 k2 K2 S : Q) :
  k1 == K1 -> k2 == K2 ->
  f_eq (replicated_at cls w1 w2 (Finite k1) (Finite k2) S)
       (replicated_at cls w1 w2 (Finite K1) (Finite K2) S).
Proof.
  intros E1 E2. unfold replicated_at, vanilla_payoff.
  destruct (String.eqb cls "call");
    rewrite ?call_payoff_finite, ?put_payoff_finite;
    apply f_add_comp; apply f_mul_finite_comp; apply positive_part_comp;
    rewrite ?E1, ?E2; reflexivity.
Qed.

(** The curve the evaluator returns for a result of the calculator whose
    strikes print plainly, for any evaluator class and price range. *)
Lemma curve_of_plain_result (tbl : DataFrame) (ot : string) (t p : Q)
    (e : Z) (d : dict) (K1 K2 strike : Q) (cls : string)
    (pr : option (list Q)) :
  replicate_binary_option tbl ot t e p = Ok d ->
  selected_strikes tbl ot t e p = Ok (K1, K2) ->
  plain_strike K1 -> plain_strike K2 ->
  cls = "call" \/ cls = "put" ->
  exists k1 k2,
    k1 == K1 /\ k2 == K2
    /\ weight_of d "option_1" = Ok (f_div (Finite 1) (Finite (K2 - K1)))
    /\ weight_of d "option_2" = Ok (f_div (Finite (-1)) (Finite (K2 - K1)))
    /\ plot_binary_replication_payoff strike cls d pr
       = let range := match pr with
                      | None => default_price_range strike
                      | Some r => r
                      end in
         Ok (mkCurve range (map (ideal_at cls strike) range)
               (map (replicated_at cls
                       (f_div (Finite 1) (Finite (K2 - K1)))
                       (f_div (Finite (-1)) (Finite (K2 - K1)))
                       (Finite k1) (Finite k2)) range)).
Proof.
  intros Hd Hsel HK1 HK2 Hcls.
  pose proof (selected_strikes_class _ _ _ _ _ _ Hsel) as Hot.
  apply replicate_ok_iff in Hd.
  destruct Hd as (K1' & K2' & o1 & o2 & Hsel' & _ & _ & ->).
  rewrite Hsel in Hsel'. injection Hsel' as <- <-.
  destruct (recover_strikes_plain strike ot K1 K2 o1 o2 Hot HK1 HK2)
    as (k1 & k2 & Hrec & E1 & E2).
  exists k1, k2. split; [assumption|]. split; [assumption|].
  split; [reflexivity|]. split; [reflexivity|].
  apply (plot_binary_replication_payoff_ok strike cls _ pr
           (Finite k1) (Finite k2)); try assumption; reflexivity.
Qed.

(** C6 (amended). For a result returned by the calculator whose two
    selected strikes K1, K2 print as plain unsigned decimal literals, and a
    class 'call' or 'put', the evaluator without an explicit price range
    uses 500 evenly spaced prices from 0.5 * strike to 1.5 * strike; the
    ideal payoff is 1 where price >= strike (call) or price <= strike (put)
    and 0 elsewhere; the replicated payoff at each price is
    weight_1 * payoff(price, K1) + weight_2 * payoff(price, K2) with the
    returned weights and the selected strikes, payoff being
    max(price - K, 0) for a call and max(K - price, 0) for a put; and on
    the replication of the example table at target 10000, where
    K1 = 10000, K2 = 10500 and the weights are 0.002 and -0.002, the
    replicated value at 10250 is 0.5 against an ideal value of 1. *)
Theorem payoff_evaluator_curves (tbl : DataFrame) (ot : string) (t p : Q)
    (e : Z) (d : dict) (K1 K2 strike : Q) (cls : string) :
  replicate_binary_option tbl ot t e p = Ok d ->
  selected_strikes tbl ot t e p = Ok (K1, K2) ->
  plain_strike K1 -> plain_strike K2 ->
  cls = "call" \/ cls = "put" ->
  (exists c w1 w2,
      plot_binary_replication_payoff strike cls d None = Ok c
      /\ weight_of d "option_1" = Ok w1
      /\ weight_of d "option_2" = Ok w2
      /\ List.length (prices c) = 500%nat
      /\ (forall i, (i < 500)%nat ->
            nth i (prices c) 0
            == (1 # 2) * strike + inject_Z (Z.of_nat i) * (strike / 499))
      /\ nth 0 (prices c) 0 == (1 # 2) * strike
      /\ nth 499 (prices c) 0 == (3 # 2) * strike
      /\ ideal_payoff c
         = map (fun S =>
                  if String.eqb cls "call"
                  then (if Qle_bool strike S then Finite 1 else Finite 0)
                  else (if Qle_bool S strike then Finite 1 else Finite 0))
               (prices c)
      /\ Forall2
           (fun S y =>
              f_eq y
                (if String.eqb cls "call"
                 then f_add (f_mul w1 (f_maximum (f_sub (Finite S) (Finite K1))
                                                 (Finite 0)))
                            (f_mul w2 (f_maximum (f_sub (Finite S) (Finite K2))
                                                 (Finite 0)))
                 else f_add (f_mul w1 (f_maximum (f_sub (Finite K1) (Finite S))
                                                 (Finite 0)))
                            (f_mul w2 (f_maximum (f_sub (Finite K2) (Finite S))
                                                 (Finite 0)))))
           (prices c) (replicated_payoff c))
  /\ (exists x,
         replicate_binary_option example_table "call" 10000 example_expiry 500
         = Ok example_call_replication
         /\ selected_strikes example_table "call" 10000 example_expiry 500
            = Ok (10000, 10500)
         /\ weight_of example_call_replication "option_1"
            = Ok (Finite (1 # 500))
         /\ weight_of example_call_replication "option_2"
            = Ok (Finite (-1 # 500))
         /\ plot_binary_replication_payoff 10000 "call"
              example_call_replication (Some [10250])
            = Ok (mkCurve [10250] [Finite 1] [Finite x])
         /\ x == 1 # 2).
Proof.
  intros Hd Hsel HK1 HK2 Hcls. split.
  - destruct (curve_of_plain_result _ _ _ _ _ _ _ _ strike cls None
                Hd Hsel HK1 HK2 Hcls)
      as (k1 & k2 & E1 & E2 & Hw1 & Hw2 & Hplot).
    cbv zeta in Hplot.
    eexists. exists (f_div (Finite 1) (Finite (K2 - K1))),
                    (f_div (Finite (-1)) (Finite (K2 - K1))).
    split; [exact Hplot|].
    split; [assumption|]. split; [assumption|].
    cbn [prices ideal_payoff replicated_payoff].
    split; [apply linspace_length|].
    split; [apply default_price_range_nth|].
    split; [apply default_price_range_first|].
    split; [apply default_price_range_last|].
    split.
    + apply map_ext. intro S. unfold ideal_at, bool_to_float.
      destruct (String.eqb cls "call"); reflexivity.
    + apply Forall2_map_r. intro S.
      pose proof (replicated_at_comp cls
                    (f_div (Finite 1) (Finite (K2 - K1)))
                    (f_div (Finite (-1)) (Finite (K2 - K1)))
                    k1 K1 k2 K2 S E1 E2) as H.
      unfold replicated_at, vanilla_payoff, call_payoff, put_payoff in *.
      destruct (String.eqb cls "call"); exact H.
  - eexists. split; [vm_compute; reflexivity|].
    repeat (split; [vm_compute; reflexivity|]).
    vm_compute. reflexivity.
Qed.

Lemma payoff_evaluator_curves_witness :
  exists c w1 w2,
    plot_binary_replication_payoff 10000 "call" example_call_replication None
    = Ok c
    /\ weight_of example_call_replication "option_1" = Ok w1
    /\ weight_of example_call_replication "option_2" = Ok w2
    /\ List.length (prices c) = 500%nat
    /\ nth 0 (prices c) 0 == (1 # 2) * 10000
    /\ nth 499 (prices c) 0 == (3 # 2) * 10000
    /\ Forall2
         (fun S y =>
            f_eq y
              (f_add (f_mul w1 (f_maximum (f_sub (Finite S) (Finite 10000))
                                          (Finite 0)))
                     (f_mul w2 (f_maximum (f_sub (Finite S) (Finite 10500))
                                          (Finite 0)))))
         (prices c) (replicated_payoff c).
Proof.
  destruct (payoff_evaluator_curves example_table "call" 10000 500
              example_expiry example_call_replication 10000 10500 10000
              "call")
    as [(c & w1 & w2 & Hc & Hw1 & Hw2 & Hlen & _ & H0 & H499 & _ & Hrep) _].
  - vm_compute. reflexivity.
  - vm_compute. reflexivity.
  - exact plain_strike_10000.
  - exact plain_strike_10500.
  - left. reflexivity.
  - exists c, w1, w2.
    split; [assumption|]. split; [assumption|]. split; [assumption|].
    split; [assumption|]. split; [assumption|]. split; [assumption|].
    exact Hrep.
Defined.

(** C6 as stated fails for a result whose strikes the evaluator cannot
    read back.  The call replicated on the strikes -4 and 4 at target -6
    has K1 = -4, K2 = 4 and the weights 1/8 and -1/8; without a price range
    the first price is 0.5 * -6 = -3, where the evaluator, using its
    estimate K1 = -6, K2 = 2, returns 3/8, while
    weight_1 * max(-3 - K1, 0) + weight_2 * max(-3 - K2, 0) is 1/8. *)
Lemma payoff_formula_counterexample :
  exists d c y z,
    replicate_binary_option signed_strike_table "call" (-6) example_expiry 4
    = Ok d
    /\ selected_strikes signed_strike_table "call" (-6) example_expiry 4
       = Ok (-4, 4)
    /\ weight_of d "option_1" = Ok (Finite (1 # 8))
    /\ weight_of d "option_2" = Ok (Finite (-1 # 8))
    /\ plot_binary_replication_payoff (-6) "call" d None = Ok c
    /\ nth 0 (prices c) 0 == -3
    /\ nth_error (replicated_payoff c) 0 = Some (Finite y)
    /\ y == 3 # 8
    /\ f_add (f_mul (Finite (1 # 8))
                    (f_maximum (f_sub (Finite (nth 0 (prices c) 0))
                                      (Finite (-4))) (Finite 0)))
             (f_mul (Finite (-1 # 8))
                    (f_maximum (f_sub (Finite (nth 0 (prices c) 0))
                                      (Finite 4)) (Finite 0)))
       = Finite z
    /\ z == 1 # 8
    /\ ~ f_eq (Finite y) (Finite z).
Proof.
  do 4 eexists.
  split; [vm_compute; reflexivity|].
  split; [vm_compute; reflexivity|].
  split; [vm_compute; reflexivity|].
  split; [vm_compute; reflexivity|].
  split; [vm_compute; reflexivity|].
  split; [vm_compute; reflexivity|].
  split; [vm_compute; reflexivity|].
  split; [vm_compute; reflexivity|].
  split; [vm_compute; reflexivity|].
  split; [vm_compute; reflexivity|].
  intro H. vm_compute in H. discriminate.
Qed.

(** ** The shape of the replicated curves *)

(** X6. For a call replicated between plain strikes K1 < K2 and prices of
    magnitude at most 1e16, the returned weights are a positive number w1
    and its opposite, and the evaluator returns the given prices and, at
    each price S, a replicated payoff that is 0 up to K1, w1 * (S - K1)
    between K1 and K2, and never negative. *)
Theorem call_curve_rises_from_zero (tbl : DataFrame) (t p : Q) (e : Z)
    (d : dict) (K1 K2 strike : Q) (pr : list Q) :
  replicate_binary_option tbl "call" t e p = Ok d ->
  selected_strikes tbl "call" t e p = Ok (K1, K2) ->
  plain_strike K1 -> plain_strike K2 -> K1 < K2 ->
  moderate_prices pr = true ->
  exists c w1 w2,
    plot_binary_replication_payoff strike "call" d (Some pr) = Ok c
    /\ prices c = pr
    /\ weight_of d "option_1" = Ok (Finite w1)
    /\ weight_of d "option_2" = Ok (Finite w2)
    /\ 0 < w1 /\ w2 == - w1
    /\ Forall2 (fun S y => exists v, y = Finite v /\ call_rise w1 K1 K2 S v)
               pr (replicated_payoff c).
Proof.
  intros Hd Hsel HK1 HK2 Hlt _.
  destruct (curve_of_plain_result _ _ _ _ _ _ _ _ strike "call" (Some pr)
              Hd Hsel HK1 HK2 (or_introl eq_refl))
    as (k1 & k2 & E1 & E2 & Hw1 & Hw2 & Hplot).
  destruct (spread_weights K1 K2 Hlt) as [F1 F2].
  rewrite F1, F2 in Hplot. rewrite F1 in Hw1. rewrite F2 in Hw2.
  cbv zeta in Hplot.
  eexists. exists (1 / (K2 - K1)), ((-1) / (K2 - K1)).
  split; [exact Hplot|]. split; [reflexivity|].
  split; [assumption|]. split; [assumption|].
  split; [apply inverse_width; assumption|].
  split; [field; lra|].
  cbn [replicated_payoff]. apply Forall2_map_r.
  intro S. apply call_spread_value; assumption.
Qed.

Lemma call_curve_rises_from_zero_witness :
  exists c w1 w2,
    plot_binary_replication_payoff 10000 "call" example_call_replication
                                   (Some [9000; 10250; 11000]) = Ok c
    /\ prices c = [9000; 10250; 11000]
    /\ weight_of example_call_replication "option_1" = Ok (Finite w1)
    /\ weight_of example_call_replication "option_2" = Ok (Finite w2)
    /\ 0 < w1 /\ w2 == - w1
    /\ Forall2 (fun S y => exists v, y = Finite v
                                     /\ call_rise w1 10000 10500 S v)
               [9000; 10250; 11000] (replicated_payoff c).
Proof.
  apply (call_curve_rises_from_zero example_table 10000 500 example_expiry).
  - vm_compute. reflexivity.
  - vm_compute. reflexivity.
  - exact plain_strike_10000.
  - exact plain_strike_10500.
  - reflexivity.
  - reflexivity.
Defined.

(** X7. For a put replicated between plain strikes K1 < K2 and prices of
    magnitude at most 1e16, the returned weights are a positive number and
    its opposite w2, and the evaluator returns at each price S a replicated
    payoff that is 0 from K2 on, w2 * (K2 - S) between K1 and K2, and never
    positive. *)
Theorem put_curve_never_positive (tbl : DataFrame) (t p : Q) (e : Z)
    (d : dict) (K1 K2 strike : Q) (pr : list Q) :
  replicate_binary_option tbl "put" t e p = Ok d ->
  selected_strikes tbl "put" t e p = Ok (K1, K2) ->
  plain_strike K1 -> plain_strike K2 -> K1 < K2 ->
  moderate_prices pr = true ->
  exists c w1 w2,
    plot_binary_replication_payoff strike "put" d (Some pr) = Ok c
    /\ prices c = pr
    /\ weight_of d "option_1" = Ok (Finite w1)
    /\ weight_of d "option_2" = Ok (Finite w2)
    /\ 0 < w1 /\ w2 == - w1
    /\ Forall2 (fun S y => exists v, y = Finite v /\ put_fall w2 K1 K2 S v)
               pr (replicated_payoff c).
Proof.
  intros Hd Hsel HK1 HK2 Hlt _.
  destruct (curve_of_plain_result _ _ _ _ _ _ _ _ strike "put" (Some pr)
              Hd Hsel HK1 HK2 (or_intror eq_refl))
    as (k1 & k2 & E1 & E2 & Hw1 & Hw2 & Hplot).
  destruct (spread_weights K1 K2 Hlt) as [F1 F2].
  rewrite F1, F2 in Hplot. rewrite F1 in Hw1. rewrite F2 in Hw2.
  cbv zeta in Hplot.
  eexists. exists (1 / (K2 - K1)), ((-1) / (K2 - K1)).
  split; [exact Hplot|]. split; [reflexivity|].
  split; [assumption|]. split; [assumption|].
  split; [apply inverse_width; assumption|].
  split; [field; lra|].
  cbn [replicated_payoff]. apply Forall2_map_r.
  intro S. apply put_spread_value; assumption.
Qed.

Lemma plain_strike_9500 : plain_strike 9500.
Proof.
  split; [vm_compute; discriminate|].
  split; [right; split; [vm_compute; discriminate|reflexivity]|].
  exists (9500 * 10 ^ 13)%Z. vm_compute. reflexivity.
Defined.

Lemma put_curve_never_positive_witness :
  exists c w1 w2,
    plot_binary_replication_payoff 10000 "put" example_put_replication
                                   (Some [9000; 9750; 11000]) = Ok c
    /\ prices c = [9000; 9750; 11000]
    /\ weight_of example_put_replication "option_1" = Ok (Finite w1)
    /\ weight_of example_put_replication "option_2" = Ok (Finite w2)
    /\ 0 < w1 /\ w2 == - w1
    /\ Forall2 (fun S y => exists v, y = Finite v
                                     /\ put_fall w2 9500 10000 S v)
               [9000; 9750; 11000] (replicated_payoff c).
Proof.
  apply (put_curve_never_positive example_table 10000 500 example_expiry).
  - vm_compute. reflexivity.
  - vm_compute. reflexivity.
  - exact plain_strike_9500.
  - exact plain_strike_10000.
  - reflexivity.
  - reflexivity.
Defined.

(* ================================================================= *)
(** ** Shape of every returned curve *)

Lemma plot_ok_inv (strike : Q) (ot : string) (d : dict)
    (pr : option (list Q)) (c : PayoffCurve) :
  plot_binary_replication_payoff strike ot d pr = Ok c ->
  (ot = "call" \/ ot = "put")
  /\ exists K1 K2 w1 w2,
       recover_strikes strike d = Ok (K1, K2)
       /\ weight_of d "option_1" = Ok w1
       /\ weight_of d "option_2" = Ok w2.
Proof.
  unfold plot_binary_replication_payoff.
  destruct (recover_strikes strike d) as [[K1 K2]|err]; [|discriminate].
  cbn [bind].
  destruct (String.eqb_spec ot "call") as [Hc|Hc].
  - cbn [bind].
    destruct (weight_of d "option_1") as [w1|]; [|discriminate].
    destruct (weight_of d "option_2") as [w2|]; [|discriminate].
    intros _. split; [left; assumption|]. exists K1, K2, w1, w2. auto.
  - destruct (String.eqb_spec ot "put") as [Hp|Hp]; [|discriminate].
    cbn [bind].
    destruct (weight_of d "option_1") as [w1|]; [|discriminate].
    destruct (weight_of d "option_2") as [w2|]; [|discriminate].
    intros _. split; [right; assumption|]. exists K1, K2, w1, w2. auto.
Qed.

(** X8. Whenever the evaluator returns a curve, the class is 'call' or
    'put', the prices are the given range (or the default one), the ideal
    and the replicated arrays have one value per price, and every ideal
    value is 0 or 1. *)
Theorem returned_curve_shape (strike : Q) (ot : string) (d : dict)
    (pr : option (list Q)) (c : PayoffCurve) :
  plot_binary_replication_payoff strike ot d pr = Ok c ->
  (ot = "call" \/ ot = "put")
  /\ prices c = match pr with
                | Some r => r
                | None => default_price_range strike
                end
  /\ List.length (ideal_payoff c) = List.length (prices c)
  /\ List.length (replicated_payoff c) = List.length (prices c)
  /\ Forall (fun y => y = Finite 0 \/ y = Finite 1) (ideal_payoff c).
Proof.
  intro H. destruct (plot_ok_inv _ _ _ _ _ H)
    as (Hot & K1 & K2 & w1 & w2 & HK & Hw1 & Hw2).
  rewrite (plot_binary_replication_payoff_ok strike ot d pr K1 K2 w1 w2
             Hot HK Hw1 Hw2) in H.
  cbv zeta in H. injection H as <-. cbn [prices ideal_payoff replicated_payoff].
  split; [assumption|]. split; [reflexivity|].
  rewrite !length_map. split; [reflexivity|]. split; [reflexivity|].
  apply Forall_forall. intros y Hy. apply in_map_iff in Hy.
  destruct Hy as (S & <- & _). unfold ideal_at, bool_to_float.
  destruct (String.eqb ot "call");
    [destruct (Qle_bool strike S)|destruct (Qle_bool S strike)]; auto.
Qed.

Lemma returned_curve_shape_witness :
  exists c,
    plot_binary_replication_payoff 10000 "call" example_call_replication None
    = Ok c
    /\ List.length (ideal_payoff c) = List.length (prices c)
    /\ List.length (replicated_payoff c) = List.length (prices c).
Proof.
  destruct (plot_binary_replication_payoff 10000 "call"
              example_call_replication None) as [c|err] eqn:E.
  - exists c. split; [reflexivity|].
    destruct (returned_curve_shape _ _ _ _ _ E) as (_ & _ & H1 & H2 & _).
    split; assumption.
  - exfalso. vm_compute in E. discriminate.
Defined.

(** ** Rows that cannot matter *)

(** X10. The result depends on the table only through the rows of the
    requested class and expiration: two tables with the same such rows,
    in the same order, give the same result, and dropping every other row
    changes nothing. *)
Theorem other_rows_do_not_matter (tbl tbl' : DataFrame) (ot : string)
    (t p : Q) (e : Z) :
  df_of_class tbl ot e = df_of_class tbl' ot e ->
  replicate_binary_option tbl ot t e p
  = replicate_binary_option tbl' ot t e p
  /\ replicate_binary_option (df_of_class tbl ot e) ot t e p
     = replicate_binary_option tbl ot t e p.
Proof.
  intro H.
  assert (Hgen : forall a b, df_of_class a ot e = df_of_class b ot e ->
                   replicate_binary_option a ot t e p
                   = replicate_binary_option b ot t e p).
  { intros a b Hab. unfold replicate_binary_option.
    destruct (String.eqb_spec ot "call") as [->|Hc]; [rewrite Hab; reflexivity|].
    destruct (String.eqb_spec ot "put") as [->|Hp]; [rewrite Hab; reflexivity|].
    reflexivity. }
  split; [apply Hgen; assumption|].
  apply Hgen. unfold df_of_class. rewrite !filter_filter.
  apply filter_ext. intro r.
  destruct (col_expiration_timestamp r =? e)%Z;
    destruct (String.eqb (col_option_type r) ot); reflexivity.
Qed.

Lemma other_rows_do_not_matter_witness :
  replicate_binary_option example_table "call" 10000 example_expiry 500
  = replicate_binary_option
      (filter (fun r => String.eqb (col_option_type r) "call") example_table)
      "call" 10000 example_expiry 500
  /\ replicate_binary_option
       (df_of_class example_table "call" example_expiry) "call" 10000
       example_expiry 500
     = replicate_binary_option example_table "call" 10000 example_expiry 500.
Proof.
  apply (other_rows_do_not_matter example_table
           (filter (fun r => String.eqb (col_option_type r) "call")
                   example_table)
           "call" 10000 500 example_expiry).
  vm_compute. reflexivity.
Defined.

(** ** The array the selector searches *)

(** X11. The strikes array built from a frame is strictly ascending and
    holds exactly the strikes of the frame's rows: every element is the
    strike of some row, and every row's strike equals one element. *)
Theorem strikes_array_sorted_distinct_complete (df : DataFrame) :
  StronglySorted Qlt (strikes_of df)
  /\ (forall K, In K (strikes_of df) ->
                exists r, In r df /\ col_strike r = K)
  /\ (forall r, In r df ->
                exists K, In K (strikes_of df) /\ K == col_strike r).
Proof.
  split; [apply strikes_of_strictly_sorted|].
  split; [apply strikes_of_sound|apply strikes_of_complete].
Qed.

Lemma strikes_array_sorted_distinct_complete_witness :
  strikes_of (df_of_class example_table "call" example_expiry)
  = example_strikes
  /\ StronglySorted Qlt
       (strikes_of (df_of_class example_table "call" example_expiry)).
Proof.
  split; [vm_compute; reflexivity|].
  apply (strikes_array_sorted_distinct_complete
           (df_of_class example_table "call" example_expiry)).
Defined.

Lemma searchsorted_left_before (a : list Q) (v : Q) : forall j x,
  (Z.of_nat j < searchsorted_left a v)%Z -> nth_error a j = Some x -> x < v.
Proof.
  induction a as [|y t IH]; intros j x Hj Hx; cbn [searchsorted_left] in Hj.
  - destruct j; discriminate.
  - destruct (Qlt_bool y v) eqn:E; qbool; [|lia].
    destruct j as [|j]; cbn in Hx.
    + injection Hx as <-. assumption.
    + apply (IH j); [lia|assumption].
Qed.

Lemma searchsorted_right_before (a : list Q) (v : Q) : forall j x,
  (Z.of_nat j < searchsorted_right a v)%Z -> nth_error a j = Some x -> x <= v.
Proof.
  induction a as [|y t IH]; intros j x Hj Hx; cbn [searchsorted_right] in Hj.
  - destruct j; discriminate.
  - destruct (Qle_bool y v) eqn:E; qbool; [|lia].
    destruct j as [|j]; cbn in Hx.
    + injection Hx as <-. assumption.
    + apply (IH j); [lia|assumption].
Qed.

Lemma searchsorted_left_after (a : list Q) (v : Q) :
  StronglySorted Qle a -> forall j x,
  (searchsorted_left a v <= Z.of_nat j)%Z -> nth_error a j = Some x -> v <= x.
Proof.
  induction 1 as [|y t Hs IH Hall]; intros j x Hj Hx;
    cbn [searchsorted_left] in Hj.
  - destruct j; discriminate.
  - rewrite Forall_forall in Hall.
    pose proof (searchsorted_left_range t v).
    destruct (Qlt_bool y v) eqn:E; qbool.
    + destruct j as [|j]; [lia|]. cbn in Hx. apply (IH j); [lia|assumption].
    + destruct j as [|j]; cbn in Hx.
      * injection Hx as <-. assumption.
      * apply nth_error_In in Hx. specialize (Hall x Hx). lra.
Qed.

Lemma searchsorted_right_after (a : list Q) (v : Q) :
  StronglySorted Qle a -> forall j x,
  (searchsorted_right a v <= Z.of_nat j)%Z -> nth_error a j = Some x -> v < x.
Proof.
  induction 1 as [|y t Hs IH Hall]; intros j x Hj Hx;
    cbn [searchsorted_right] in Hj.
  - destruct j; discriminate.
  - rewrite Forall_forall in Hall.
    pose proof (searchsorted_right_range t v).
    destruct (Qle_bool y v) eqn:E; qbool.
    + destruct j as [|j]; [lia|]. cbn in Hx. apply (IH j); [lia|assumption].
    + destruct j as [|j]; cbn in Hx.
      * injection Hx as <-. assumption.
      * apply nth_error_In in Hx. specialize (Hall x Hx). lra.
Qed.

(** X12. On an ascending array both searches return an insertion point:
    an index between 0 and the length such that every element before it
    is below [v] (left: strictly; right: or equal) and every element from
    it on is at least [v] (right: strictly above). *)
Theorem searchsorted_insertion_point (a : list Q) (v : Q) :
  StronglySorted Qle a ->
  ((0 <= searchsorted_left a v <= len a)%Z
   /\ (forall j x, (Z.of_nat j < searchsorted_left a v)%Z ->
                   nth_error a j = Some x -> x < v)
   /\ (forall j x, (searchsorted_left a v <= Z.of_nat j)%Z ->
                   nth_error a j = Some x -> v <= x))
  /\ ((0 <= searchsorted_right a v <= len a)%Z
      /\ (forall j x, (Z.of_nat j < searchsorted_right a v)%Z ->
                      nth_error a j = Some x -> x <= v)
      /\ (forall j x, (searchsorted_right a v <= Z.of_nat j)%Z ->
                      nth_error a j = Some x -> v < x)).
Proof.
  intro Hs. split; (split; [|split]).
  - apply searchsorted_left_range.
  - apply searchsorted_left_before.
  - apply searchsorted_left_after. assumption.
  - apply searchsorted_right_range.
  - apply searchsorted_right_before.
  - apply searchsorted_right_after. assumption.
Qed.

Lemma searchsorted_insertion_point_witness :
  searchsorted_left example_strikes 10000 = 2%Z
  /\ searchsorted_right example_strikes 10000 = 3%Z
  /\ (forall j x,
         (Z.of_nat j < searchsorted_left example_strikes 10000)%Z ->
         nth_error example_strikes j = Some x ->
         x < 10000).
Proof.
  split; [reflexivity|]. split; [reflexivity|].
  apply (searchsorted_insertion_point example_strikes 10000).
  repeat constructor; vm_compute; discriminate.
Defined.

(** ** The strike argument and the replicated curve *)



(* ================================================================= *)
(** * Properties of utils.py *)

(** ** Filtering instruments *)

Lemma filter_comm {A : Type} (f g : A -> bool) (l : list A) :
  filter f (filter g l) = filter g (filter f l).
Proof.
  rewrite !filter_filter. apply filter_ext. intro x. apply andb_comm.
Qed.

Lemma filter_idem {A : Type} (f : A -> bool) (l : list A) :
  filter f (filter f l) = filter f l.
Proof.
  rewrite filter_filter. apply filter_ext. intro x. destruct (f x); reflexivity.
Qed.

(** X13. [filter_instruments] keeps exactly the instruments whose 'strike'
    equals the given strike and whose 'expiration_timestamp' equals the
    given one, each test applying only when its argument is given; an
    instrument without the key fails the test; without arguments the list
    is returned as it is; the instruments are judged one by one and stay
    in order. *)
Theorem filter_instruments_keeps_matching (l l1 l2 : list jobject)
    (s : option Q) (e : option Z) :
  (forall inst,
      In inst (filter_instruments l s e) <->
      In inst l
      /\ (forall x, s = Some x ->
                    eq_number (obj_get inst "strike") x = true)
      /\ (forall y, e = Some y ->
                    eq_number (obj_get inst "expiration_timestamp")
                              (inject_Z y) = true))
  /\ (forall inst x y,
         (s = Some x /\ obj_get inst "strike" = None)
         \/ (e = Some y /\ obj_get inst "expiration_timestamp" = None) ->
         ~ In inst (filter_instruments l s e))
  /\ filter_instruments l None None = l
  /\ filter_instruments (l1 ++ l2) s e
     = (filter_instruments l1 s e ++ filter_instruments l2 s e)%list.
Proof.
  assert (Hmem : forall inst,
      In inst (filter_instruments l s e) <->
      In inst l
      /\ (forall x, s = Some x ->
                    eq_number (obj_get inst "strike") x = true)
      /\ (forall y, e = Some y ->
                    eq_number (obj_get inst "expiration_timestamp")
                              (inject_Z y) = true)).
  { intro inst. unfold filter_instruments.
    destruct s as [x|]; destruct e as [y|]; rewrite ?filter_In; split.
    - intros [[H1 H2] H3]. split; [assumption|].
      split; intros ? E; injection E as <-; assumption.
    - intros (H1 & H2 & H3). auto.
    - intros [H1 H2]. split; [assumption|].
      split; intros ? E; [injection E as <-; assumption|discriminate].
    - intros (H1 & H2 & H3). auto.
    - intros [H1 H2]. split; [assumption|].
      split; intros ? E; [discriminate|injection E as <-; assumption].
    - intros (H1 & H2 & H3). auto.
    - intro H. split; [assumption|]. split; intros ? E; discriminate.
    - tauto. }
  split; [exact Hmem|]. split; [|split].
  - intros inst x y H Hin. apply Hmem in Hin. destruct Hin as (_ & Hs & He).
    destruct H as [[-> Hn]|[-> Hn]].
    + specialize (Hs x eq_refl). rewrite Hn in Hs. discriminate.
    + specialize (He y eq_refl). rewrite Hn in He. discriminate.
  - reflexivity.
  - unfold filter_instruments.
    destruct s; destruct e; rewrite ?filter_app; reflexivity.
Qed.

Lemma filter_instruments_keeps_matching_witness :
  In [("instrument_name", JStr "BTC-27DEC24-10000-C");
      ("strike", JNum 10000);
      ("expiration_timestamp", JNum (inject_Z example_expiry));
      ("option_type", JStr "call");
      ("volume", JNum 0)]
     (filter_instruments example_instruments (Some 10000)
                         (Some example_expiry))
  /\ ~ In [("instrument_name", JStr "BTC-27DEC24-10500-C")]
          (filter_instruments
             [[("instrument_name", JStr "BTC-27DEC24-10500-C")]]
             (Some 10500) None).
Proof.
  split.
  - apply (filter_instruments_keeps_matching example_instruments [] []
             (Some 10000) (Some example_expiry)).
    split; [left; reflexivity|].
    split; intros ? E; injection E as <-; reflexivity.
  - apply (proj1 (proj2 (filter_instruments_keeps_matching
                           [[("instrument_name", JStr "BTC-27DEC24-10500-C")]]
                           [] [] (Some 10500) None))
             _ 10500 0%Z).
    left. split; reflexivity.
Defined.

(** X14. The two criteria can be applied in one call or one after the
    other in either order, and filtering a second time by the same
    criteria changes nothing. *)
Theorem filter_instruments_composes (l : list jobject) (s : option Q)
    (e : option Z) :
  filter_instruments (filter_instruments l s None) None e
  = filter_instruments l s e
  /\ filter_instruments (filter_instruments l None e) s None
     = filter_instruments l s e
  /\ filter_instruments (filter_instruments l s e) s e
     = filter_instruments l s e.
Proof.
  unfold filter_instruments.
  destruct s as [x|]; destruct e as [y|];
    (split; [|split]); rewrite ?filter_idem; try reflexivity.
  - apply filter_comm.
  - rewrite !filter_filter. apply filter_ext. intro inst.
    destruct (eq_number (obj_get inst "strike") x);
      destruct (eq_number (obj_get inst "expiration_timestamp") (inject_Z y));
      reflexivity.
Qed.

(** ** Building the frame *)

Lemma distinct_labels_In (l : list string) (c : string) :
  In c (distinct_labels l) <-> In c l.
Proof.
  induction l as [|x t IH]; cbn [distinct_labels In]; [tauto|].
  rewrite filter_In, IH, negb_true_iff, String.eqb_neq.
  destruct (string_dec x c) as [->|Hne]; [tauto|].
  split; [tauto|]. intros [H|H]; [contradiction|]. right. split; congruence.
Qed.

Lemma distinct_labels_NoDup (l : list string) : NoDup (distinct_labels l).
Proof.
  induction l as [|x t IH]; cbn [distinct_labels]; constructor.
  - rewrite filter_In, negb_true_iff, String.eqb_neq. tauto.
  - apply NoDup_filter. assumption.
Qed.

Lemma obj_get_In (o : jobject) (k : string) :
  (exists v, obj_get o k = Some v) <-> In k (map fst o).
Proof.
  induction o as [|[k' v'] t IH]; cbn [obj_get map fst In].
  - split; [intros (v & H); discriminate|tauto].
  - destruct (String.eqb_spec k' k) as [->|Hne].
    + split; eauto.
    + rewrite IH. tauto.
Qed.

Lemma obj_get_None (o : jobject) (k : string) :
  obj_get o k = None <-> ~ In k (map fst o).
Proof.
  rewrite <- obj_get_In. destruct (obj_get o k) as [v|].
  - split; [discriminate|]. intro H. exfalso. apply H. eauto.
  - split; [|reflexivity]. intros _ (v & H). discriminate.
Qed.

Lemma column_index_Some (columns : list string) (c : string) :
  In c columns ->
  exists j, column_index columns c = Some j /\ nth_error columns j = Some c.
Proof.
  induction columns as [|x t IH]; cbn [In column_index]; [tauto|].
  intro H. destruct (String.eqb_spec x c) as [->|Hne].
  - exists 0%nat. split; reflexivity.
  - destruct IH as (j & Hj & Hn); [tauto|].
    exists (S j). rewrite Hj. split; [reflexivity|assumption].
Qed.

Lemma column_index_None (columns : list string) (c : string) :
  ~ In c columns -> column_index columns c = None.
Proof.
  induction columns as [|x t IH]; cbn [In column_index]; [reflexivity|].
  intro H. destruct (String.eqb_spec x c) as [->|Hne]; [tauto|].
  rewrite IH by tauto. reflexivity.
Qed.

Lemma records_columns (records : list jobject) (c : string) :
  In c (frame_columns (DataFrame_of_records records))
  <-> exists r, In r records /\ In c (map fst r).
Proof.
  cbn [DataFrame_of_records frame_columns].
  rewrite distinct_labels_In, in_concat. split.
  - intros (ks & Hks & Hc). apply in_map_iff in Hks.
    destruct Hks as (r & <- & Hr). eauto.
  - intros (r & Hr & Hc). exists (map fst r). split; [|assumption].
    apply in_map. assumption.
Qed.

Lemma records_cell (records : list jobject) (i : nat) (r : jobject)
    (c : string) :
  nth_error records i = Some r ->
  frame_cell (DataFrame_of_records records) i c = obj_get r c.
Proof.
  intro Hi. unfold frame_cell.
  cbn [DataFrame_of_records frame_records frame_columns].
  rewrite nth_error_map, Hi. cbn [option_map].
  set (columns := distinct_labels (concat (map (map fst) records))).
  destruct (in_dec string_dec c columns) as [Hin|Hout].
  - destruct (column_index_Some columns c Hin) as (j & -> & Hj).
    rewrite nth_error_map, Hj. reflexivity.
  - rewrite (column_index_None columns c Hout).
    symmetry. apply obj_get_None. intro Hc. apply Hout.
    apply (proj2 (records_columns records c)).
    exists r. split; [eapply nth_error_In; eassumption|assumption].
Qed.

(** X15. [json_to_dataframe] rejects an empty list ("Input JSON data is
    empty") and a list whose records all have no key ("Converted DataFrame
    is empty"); for any other list it returns a frame with one row per
    record, in order, whose columns are the keys that occur in the
    records, each once, and whose cell at (row i, column c) is record i's
    value under c, empty where the record has no such key. *)
Theorem json_to_dataframe_rows_and_cells (json_data : list jobject) :
  (json_data = [] ->
   json_to_dataframe json_data = Raise (ValueError "Input JSON data is empty"))
  /\ (json_data <> [] -> (forall r, In r json_data -> r = []) ->
      json_to_dataframe json_data
      = Raise (ValueError "Converted DataFrame is empty"))
  /\ (forall r0, In r0 json_data -> r0 <> [] ->
      exists df,
        json_to_dataframe json_data = Ok df
        /\ List.length (frame_records df) = List.length json_data
        /\ NoDup (frame_columns df)
        /\ (forall c, In c (frame_columns df)
                      <-> exists r, In r json_data /\ In c (map fst r))
        /\ (forall i r c, nth_error json_data i = Some r ->
                          frame_cell df i c = obj_get r c)).
Proof.
  split; [intros ->; reflexivity|]. split.
  - intros Hne Hall. destruct json_data as [|r t]; [congruence|].
    unfold json_to_dataframe.
    assert (Hc : frame_columns (DataFrame_of_records (r :: t)) = []).
    { destruct (frame_columns (DataFrame_of_records (r :: t))) as [|c cs] eqn:E;
        [reflexivity|].
      assert (Hin : In c (frame_columns (DataFrame_of_records (r :: t))))
        by (rewrite E; left; reflexivity).
      apply records_columns in Hin. destruct Hin as (r' & Hr' & Hk).
      rewrite (Hall r' Hr') in Hk. destruct Hk. }
    unfold frame_empty. rewrite Hc. reflexivity.
  - intros r0 Hr0 Hne0.
    exists (DataFrame_of_records json_data).
    split; [|split; [|split; [|split]]].
    + destruct json_data as [|r t]; [destruct Hr0|].
      unfold json_to_dataframe.
      assert (Hk : exists k, In k (map fst r0)).
      { destruct r0 as [|[k v] r0]; [congruence|]. exists k. left. reflexivity. }
      destruct Hk as (k & Hk).
      assert (Hin : In k (frame_columns (DataFrame_of_records (r :: t))))
        by (apply records_columns; eauto).
      unfold frame_empty.
      destruct (frame_columns (DataFrame_of_records (r :: t))); [destruct Hin|].
      reflexivity.
    + cbn [DataFrame_of_records frame_records]. apply length_map.
    + apply distinct_labels_NoDup.
    + apply records_columns.
    + intros i r c. apply records_cell.
Qed.

Lemma json_to_dataframe_rows_and_cells_witness :
  exists df,
    json_to_dataframe example_records = Ok df
    /\ List.length (frame_records df) = 2%nat
    /\ frame_columns df = ["instrument_name"; "strike"; "last_price"]
    /\ frame_cell df 0 "last_price" = None
    /\ frame_cell df 1 "last_price" = Some (JNum (45 # 1000)).
Proof.
  destruct (json_to_dataframe_rows_and_cells example_records)
    as (_ & _ & H).
  destruct (H [("instrument_name", JStr "BTC-27DEC24-10000-C");
               ("strike", JNum 10000)]) as (df & Hdf & Hlen & _ & _ & Hcell).
  - left. reflexivity.
  - discriminate.
  - exists df. split; [assumption|]. split; [assumption|].
    split; [vm_compute in Hdf; injection Hdf as <-; reflexivity|].
    split; [rewrite (Hcell 0%nat _ "last_price" eq_refl)
           |rewrite (Hcell 1%nat _ "last_price" eq_refl)]; reflexivity.
Defined.

(* ================================================================= *)
(** * Properties of data_fetcher.py *)

(** ** Dictionaries *)

Lemma obj_get_set (o : jobject) (k k' : string) (v : json) :
  obj_get (obj_set o k v) k'
  = if String.eqb k k' then Some v else obj_get o k'.
Proof.
  induction o as [|[k0 v0] t IH]; cbn [obj_set obj_get].
  - reflexivity.
  - destruct (String.eqb_spec k0 k) as [->|Hne]; cbn [obj_get].
    + destruct (String.eqb_spec k k'); reflexivity.
    + rewrite IH. destruct (String.eqb_spec k0 k') as [->|Hne'];
        [|reflexivity].
      destruct (String.eqb_spec k k'); [congruence|reflexivity].
Qed.

Lemma obj_set_absent (o : jobject) (k : string) (v : json) :
  obj_get o k = None -> obj_set o k v = (o ++ [(k, v)])%list.
Proof.
  induction o as [|[k0 v0] t IH]; cbn [obj_set obj_get app]; [reflexivity|].
  destruct (String.eqb k0 k); [discriminate|].
  intro H. rewrite IH by assumption. reflexivity.
Qed.

Lemma obj_get_update (o x : jobject) (k : string) :
  NoDup (map fst x) ->
  obj_get (obj_update o x) k
  = match obj_get x k with
    | Some v => Some v
    | None => obj_get o k
    end.
Proof.
  unfold obj_update. revert o.
  induction x as [|[k0 v0] t IH]; intros o Hnd; cbn [fold_left obj_get fst snd].
  - reflexivity.
  - cbn [map fst] in Hnd. inversion Hnd as [|? ? Hout Hnd']; subst.
    rewrite IH by assumption. rewrite obj_get_set.
    destruct (String.eqb_spec k0 k) as [->|Hne]; [|reflexivity].
    rewrite (proj2 (obj_get_None t k) Hout). reflexivity.
Qed.

(** ** Flattening the statistics *)

Lemma add_missing_get (o : jobject) (kv : string * json) (k : string) :
  obj_get (add_missing o kv) k
  = match obj_get o k with
    | Some v => Some v
    | None => if String.eqb (fst kv) k then Some (snd kv) else None
    end.
Proof.
  unfold add_missing, obj_mem.
  destruct (obj_get o (fst kv)) as [v0|] eqn:E.
  - destruct (obj_get o k) as [v|] eqn:Ek; [reflexivity|].
    destruct (String.eqb_spec (fst kv) k) as [Heq|Hne]; [|reflexivity].
    rewrite Heq in E. congruence.
  - rewrite obj_get_set.
    destruct (String.eqb_spec (fst kv) k) as [Heq|Hne].
    + rewrite <- Heq, E. reflexivity.
    + destruct (obj_get o k); reflexivity.
Qed.

Lemma fold_add_missing_get (stats : jobject) : forall (o : jobject) k,
  obj_get (fold_left add_missing stats o) k
  = match obj_get o k with
    | Some v => Some v
    | None => obj_get stats k
    end.
Proof.
  induction stats as [|[k0 v0] t IH]; intros o k; cbn [fold_left obj_get].
  - destruct (obj_get o k); reflexivity.
  - rewrite IH, add_missing_get. cbn [fst snd].
    destruct (obj_get o k); [reflexivity|].
    destruct (String.eqb k0 k); reflexivity.
Qed.

Lemma fold_add_missing_extends (stats : jobject) : forall o : jobject,
  exists added, fold_left add_missing stats o = (o ++ added)%list.
Proof.
  induction stats as [|kv t IH]; intro o; cbn [fold_left].
  - exists []. rewrite app_nil_r. reflexivity.
  - destruct (IH (add_missing o kv)) as (added & ->).
    unfold add_missing, obj_mem.
    destruct (obj_get o (fst kv)) eqn:E.
    + exists added. reflexivity.
    + rewrite obj_set_absent by assumption.
      exists ((fst kv, snd kv) :: added). rewrite <- app_assoc. reflexivity.
Qed.

Lemma fold_add_missing_present (stats : jobject) : forall o : jobject,
  (forall k, In k (map fst stats) -> obj_mem o k = true) ->
  fold_left add_missing stats o = o.
Proof.
  induction stats as [|kv t IH]; intros o H; cbn [fold_left]; [reflexivity|].
  assert (Hkv : add_missing o kv = o).
  { unfold add_missing. rewrite H; [reflexivity|]. left. reflexivity. }
  rewrite Hkv. apply IH. intros k Hk. apply H. right. assumption.
Qed.

Lemma fold_add_missing_NoDup (stats : jobject) : forall o : jobject,
  NoDup (map fst o) -> NoDup (map fst (fold_left add_missing stats o)).
Proof.
  induction stats as [|kv t IH]; intros o H; cbn [fold_left]; [assumption|].
  apply IH. unfold add_missing, obj_mem.
  destruct (obj_get o (fst kv)) eqn:E; [assumption|].
  rewrite obj_set_absent by assumption.
  rewrite map_app. cbn [map fst].
  apply NoDup_app; [assumption|constructor; [intros []|constructor]|].
  intros k Hk [<-|[]]. apply obj_get_None in E. contradiction.
Qed.

(** X16. [flatten_instrument] succeeds exactly when the instrument holds a
    dictionary under 'stats'.  It then returns the instrument with entries
    appended after the existing ones: every key the instrument had keeps
    its value, and every other key of 'stats' is added with its 'stats'
    value.  Without a 'stats' dictionary, in particular without the key,
    it raises [AttributeError]. *)
Theorem flatten_instrument_adds_missing_stats (instrument : jobject) :
  (forall stats,
      obj_get instrument "stats" = Some (JObj stats) ->
      exists out,
        flatten_instrument instrument = Done out
        /\ (exists added, out = (instrument ++ added)%list)
        /\ forall k,
             obj_get out k
             = match obj_get instrument k with
               | Some v => Some v
               | None => obj_get stats k
               end)
  /\ ((forall stats, obj_get instrument "stats" <> Some (JObj stats)) ->
      flatten_instrument instrument = Fail AttributeError).
Proof.
  split.
  - intros stats H. unfold flatten_instrument. rewrite H.
    eexists. split; [reflexivity|].
    split; [apply fold_add_missing_extends|apply fold_add_missing_get].
  - intro H. unfold flatten_instrument.
    destruct (obj_get instrument "stats") as [[| | | | |stats]|];
      try reflexivity.
    exfalso. apply (H stats). reflexivity.
Qed.

Lemma flatten_instrument_adds_missing_stats_witness :
  exists out,
    flatten_instrument example_ticker = Done out
    /\ obj_get out "volume" = Some (JNum 3)
    /\ obj_get out "high" = Some (JNum (8 # 100))
    /\ flatten_instrument [("instrument_name", JStr "BTC-27DEC24-10000-C")]
       = Fail AttributeError.
Proof.
  destruct (flatten_instrument_adds_missing_stats example_ticker)
    as [Hok _].
  destruct (Hok [("volume", JNum 12); ("high", JNum (8 # 100));
                 ("low", JNum (6 # 100))] eq_refl) as (out & Hout & _ & Hget).
  exists out. split; [assumption|].
  split; [rewrite Hget; reflexivity|].
  split; [rewrite Hget; reflexivity|].
  apply (flatten_instrument_adds_missing_stats
           [("instrument_name", JStr "BTC-27DEC24-10000-C")]).
  intros stats H. discriminate.
Defined.

(** X17. Flattening is idempotent: an instrument returned by
    [flatten_instrument] is returned unchanged when flattened again. *)
Theorem flatten_instrument_idempotent (instrument out : jobject) :
  flatten_instrument instrument = Done out ->
  flatten_instrument out = Done out.
Proof.
  unfold flatten_instrument.
  destruct (obj_get instrument "stats") as [[| | | | |stats]|] eqn:E;
    try discriminate.
  intro H. injection H as <-.
  rewrite fold_add_missing_get, E.
  rewrite fold_add_missing_present; [reflexivity|].
  intros k Hk. unfold obj_mem. rewrite fold_add_missing_get.
  destruct (obj_get instrument k); [reflexivity|].
  apply obj_get_In in Hk. destruct Hk as (v & ->). reflexivity.
Qed.

Lemma flatten_instrument_idempotent_witness :
  exists out,
    flatten_instrument example_ticker = Done out
    /\ flatten_instrument out = Done out.
Proof.
  destruct (flatten_instrument example_ticker) as [out|err] eqn:E;
    [|exfalso; vm_compute in E; discriminate].
  exists out. split; [reflexivity|].
  apply (flatten_instrument_idempotent example_ticker). assumption.
Defined.

(** ** Fetching the instruments *)

Lemma get_ticker_done (ticker_api : nat -> json -> outcome (option jobject))
    (n : nat) (name : json) (ticker : jobject) :
  get_ticker ticker_api n name = Done ticker ->
  exists raw,
    ticker_api n name = Done (Some raw) /\ raw <> []
    /\ flatten_instrument raw = Done ticker.
Proof.
  unfold get_ticker.
  destruct (ticker_api n name) as [[[|kv raw]|]|err]; cbn [and_then];
    try discriminate.
  intro H. exists (kv :: raw).
  split; [reflexivity|]. split; [discriminate|exact H].
Qed.

Lemma update_with_tickers_done
    (ticker_api : nat -> json -> outcome (option jobject))
    (instruments : list jobject) : forall n updated,
  update_with_tickers ticker_api n instruments = Done updated ->
  List.length updated = List.length instruments
  /\ forall i inst,
       nth_error instruments i = Some inst ->
       exists name ticker,
         obj_get inst "instrument_name" = Some name
         /\ get_ticker ticker_api (n + i) name = Done ticker
         /\ nth_error updated i = Some (obj_update inst ticker).
Proof.
  induction instruments as [|inst0 rest IH]; intros n updated;
    cbn [update_with_tickers].
  - intro H. injection H as <-. split; [reflexivity|].
    intros [|i] inst Hi; discriminate.
  - destruct (obj_get inst0 "instrument_name") as [name|] eqn:En;
      cbn [and_then]; [|discriminate].
    destruct (get_ticker ticker_api n name) as [ticker|] eqn:Et;
      cbn [and_then]; [|discriminate].
    destruct (update_with_tickers ticker_api (S n) rest) as [rest'|] eqn:Er;
      cbn [and_then]; [|discriminate].
    intro H. injection H as <-.
    destruct (IH (S n) rest' Er) as [Hlen Hrest].
    split; [cbn [List.length]; rewrite Hlen; reflexivity|].
    intros [|i] inst Hi; cbn [nth_error] in *.
    + injection Hi as <-. exists name, ticker.
      rewrite Nat.add_0_r. auto.
    + destruct (Hrest i inst Hi) as (name' & ticker' & H1 & H2 & H3).
      exists name', ticker'.
      replace (n + S i)%nat with (S n + i)%nat by lia. auto.
Qed.

Lemma flatten_instrument_NoDup (raw ticker : jobject) :
  flatten_instrument raw = Done ticker ->
  NoDup (map fst raw) -> NoDup (map fst ticker).
Proof.
  unfold flatten_instrument.
  destruct (obj_get raw "stats") as [[| | | | |stats]|]; try discriminate.
  intro H. injection H as <-. apply fold_add_missing_NoDup.
Qed.

Lemma json_to_dataframe_ok (records : list jobject) (df : frame) :
  json_to_dataframe records = Ok df -> df = DataFrame_of_records records.
Proof.
  unfold json_to_dataframe. destruct records as [|r t]; [discriminate|].
  destruct (frame_empty (DataFrame_of_records (r :: t))); [discriminate|].
  intro H. injection H as <-. reflexivity.
Qed.

Lemma get_btc_option_instruments_done
    (instruments_api : outcome (option (list jobject)))
    (ticker_api : nat -> json -> outcome (option jobject))
    (s : option Q) (e : option Z) (df : frame) :
  get_btc_option_instruments instruments_api ticker_api s e = Done df ->
  exists instruments updated,
    instruments_api = Done (Some instruments)
    /\ update_with_tickers ticker_api 0 (filter_instruments instruments s e)
       = Done updated
    /\ df = DataFrame_of_records updated.
Proof.
  unfold get_btc_option_instruments.
  destruct instruments_api as [[[|inst0 rest]|]|err]; cbn [and_then];
    try discriminate.
  destruct (update_with_tickers ticker_api 0
              (filter_instruments (inst0 :: rest) s e)) as [updated|] eqn:Eu;
    cbn [and_then]; [|discriminate].
  destruct (json_to_dataframe updated) as [df'|] eqn:Ej; cbn [lift];
    [|discriminate].
  intro H. injection H as <-.
  exists (inst0 :: rest), updated. split; [reflexivity|].
  split; [exact Eu|]. apply json_to_dataframe_ok. assumption.
Qed.

(** X18. A returned table has one row per instrument that passed the
    filter, in order.  For each of them the ticker was requested by the
    value under 'instrument_name' and flattened, and the row is the
    instrument updated with it: a cell holds the flattened ticker's value
    where the ticker has the key and the instrument's own value
    elsewhere. *)
Theorem fetched_rows_are_updated_instruments
    (instruments_api : outcome (option (list jobject)))
    (ticker_api : nat -> json -> outcome (option jobject))
    (s : option Q) (e : option Z) (df : frame) :
  get_btc_option_instruments instruments_api ticker_api s e = Done df ->
  exists instruments,
    instruments_api = Done (Some instruments)
    /\ List.length (frame_records df)
       = List.length (filter_instruments instruments s e)
    /\ forall i inst,
         nth_error (filter_instruments instruments s e) i = Some inst ->
         exists name raw ticker,
           obj_get inst "instrument_name" = Some name
           /\ ticker_api i name = Done (Some raw)
           /\ flatten_instrument raw = Done ticker
           /\ (forall c, frame_cell df i c
                         = obj_get (obj_update inst ticker) c)
           /\ (NoDup (map fst raw) ->
               forall c, frame_cell df i c
                         = match obj_get ticker c with
                           | Some v => Some v
                           | None => obj_get inst c
                           end).
Proof.
  intro H. apply get_btc_option_instruments_done in H.
  destruct H as (instruments & updated & Hapi & Hupd & ->).
  destruct (update_with_tickers_done _ _ _ _ Hupd) as [Hlen Hrows].
  exists instruments. split; [assumption|].
  split.
  - cbn [DataFrame_of_records frame_records]. rewrite length_map. assumption.
  - intros i inst Hi.
    destruct (Hrows i inst Hi) as (name & ticker & Hname & Htick & Hrow).
    cbn [Nat.add] in Htick.
    destruct (get_ticker_done _ _ _ _ Htick) as (raw & Hraw & _ & Hflat).
    exists name, raw, ticker.
    split; [assumption|]. split; [assumption|]. split; [assumption|].
    assert (Hcell : forall c, frame_cell (DataFrame_of_records updated) i c
                              = obj_get (obj_update inst ticker) c)
      by (intro c; apply records_cell; assumption).
    split; [exact Hcell|].
    intros Hnd c. rewrite Hcell. apply obj_get_update.
    eapply flatten_instrument_NoDup; eassumption.
Qed.

(** X19. The fetch fails as a whole, never with a partial table: with the
    error of the instruments request when that fails; with "No instruments
    found or invalid response format." when the body has no result or an
    empty one; with "Input JSON data is empty" when no instrument passes
    the filter; and with some error when an instrument that passed the
    filter has no 'instrument_name' or its ticker cannot be fetched and
    flattened. *)
Theorem fetch_fails_as_a_whole
    (instruments_api : outcome (option (list jobject)))
    (ticker_api : nat -> json -> outcome (option jobject))
    (s : option Q) (e : option Z) :
  (forall err, instruments_api = Fail err ->
     get_btc_option_instruments instruments_api ticker_api s e = Fail err)
  /\ (instruments_api = Done None \/ instruments_api = Done (Some []) ->
      get_btc_option_instruments instruments_api ticker_api s e
      = Fail no_instruments)
  /\ (forall instruments,
         instruments_api = Done (Some instruments) -> instruments <> [] ->
         filter_instruments instruments s e = [] ->
         get_btc_option_instruments instruments_api ticker_api s e
         = Fail (PyError (ValueError "Input JSON data is empty")))
  /\ (forall instruments i inst,
         instruments_api = Done (Some instruments) ->
         nth_error (filter_instruments instruments s e) i = Some inst ->
         obj_get inst "instrument_name" = None
         \/ (exists name err,
                obj_get inst "instrument_name" = Some name
                /\ get_ticker ticker_api i name = Fail err) ->
         exists err,
           get_btc_option_instruments instruments_api ticker_api s e
           = Fail err).
Proof.
  split; [intros err ->; reflexivity|].
  split; [intros [-> | ->]; reflexivity|].
  split.
  - intros instruments -> Hne Hf. unfold get_btc_option_instruments.
    destruct instruments as [|inst0 rest]; [congruence|].
    cbn [and_then]. rewrite Hf. reflexivity.
  - intros instruments i inst Hapi Hi Hbad.
    destruct (get_btc_option_instruments instruments_api ticker_api s e)
      as [df|err] eqn:E; [|eauto].
    exfalso. apply get_btc_option_instruments_done in E.
    destruct E as (instruments' & updated & Hapi' & Hupd & _).
    rewrite Hapi in Hapi'. injection Hapi' as <-.
    destruct (update_with_tickers_done _ _ _ _ Hupd) as [_ Hrows].
    destruct (Hrows i inst Hi) as (name & ticker & Hname & Htick & _).
    cbn [Nat.add] in Htick.
    destruct Hbad as [Hnone|(name' & err & Hname' & Hfail)]; [congruence|].
    rewrite Hname in Hname'. injection Hname' as <-. congruence.
Qed.

Lemma fetched_rows_are_updated_instruments_witness :
  exists df,
    get_btc_option_instruments (Done (Some example_instruments))
                               example_ticker_api (Some 10000) None
    = Done df
    /\ List.length (frame_records df) = 1%nat
    /\ frame_cell df 0 "strike" = Some (JNum 10000)
    /\ frame_cell df 0 "volume" = Some (JNum 3)
    /\ frame_cell df 0 "high" = Some (JNum (8 # 100)).
Proof.
  destruct (get_btc_option_instruments (Done (Some example_instruments))
              example_ticker_api (Some 10000) None) as [df|err] eqn:E;
    [|exfalso; vm_compute in E; discriminate].
  destruct (fetched_rows_are_updated_instruments _ _ _ _ _ E)
    as (instruments & Hapi & Hlen & Hrows).
  injection Hapi as <-.
  destruct (Hrows 0%nat _ eq_refl)
    as (name & raw & ticker & Hname & Hraw & Hflat & _ & Hcell).
  injection Hname as <-. injection Hraw as <-.
  vm_compute in Hflat. injection Hflat as <-.
  assert (Hnd : NoDup (map fst example_ticker)).
  { repeat constructor; cbn; intuition discriminate. }
  exists df. split; [reflexivity|]. split; [exact Hlen|].
  rewrite !(Hcell Hnd). repeat split.
Defined.

Lemma fetch_fails_as_a_whole_witness :
  (exists err,
      get_btc_option_instruments (Done (Some example_instruments))
                                 example_ticker_api None None
      = Fail err)
  /\ get_btc_option_instruments (Done (Some example_instruments))
                                example_ticker_api (Some 9000) None
     = Fail (PyError (ValueError "Input JSON data is empty"))
  /\ get_btc_option_instruments (Done None) example_ticker_api None None
     = Fail no_instruments.
Proof.
  destruct (fetch_fails_as_a_whole (Done (Some example_instruments))
              example_ticker_api None None) as (_ & _ & _ & Hloop).
  destruct (fetch_fails_as_a_whole (Done (Some example_instruments))
              example_ticker_api (Some 9000) None) as (_ & _ & Hnone & _).
  destruct (fetch_fails_as_a_whole (Done None)
              example_ticker_api None None) as (_ & Hres & _).
  split; [|split].
  - apply (Hloop example_instruments 1%nat
             [("instrument_name", JStr "BTC-27DEC24-10500-C");
              ("strike", JNum 10500);
              ("expiration_timestamp", JNum (inject_Z example_expiry));
              ("option_type", JStr "call")]);
      [reflexivity|reflexivity|].
    right. exists (JStr "BTC-27DEC24-10500-C"), HTTPError.
    split; reflexivity.
  - apply (Hnone example_instruments); [reflexivity|discriminate|reflexivity].
  - apply Hres. left. reflexivity.
Defined.
